(** * lie_counter: a model of [fetch_lies.py] and its specification

    The script keeps a small JSON record ([data.json]) with a counter of
    days since the last flagged statement, two totals and a bounded
    history.  Every run loads the record, asks a fact-check service for
    claims, filters the reviews of the last 24 hours that are rated false,
    updates the record and writes it back.

    Conventions of the model:
    - Python values that come from JSON are values of [json]; a [dict] is a
      [gmap string json].  JSON numbers are integers: the record and the
      service hold no fractional number, [json] has none, and no property
      below speaks of one (Python would add an integer to a [float]
      without error).
    - A [str] is a [string] of bytes (UTF-8).  The script only looks for
      ASCII text in strings, and no byte of a multi-byte UTF-8 sequence is
      an ASCII byte, so byte-wise search and ASCII lower-casing agree with
      Python on everything the script tests.
    - A Python exception that leaves a function is a [Raise e] result.
    - In-place mutation of the [data] dict is explicit state passing: the
      functions return the dict after the mutation.  The list of flagged
      claims handed to [update_counter] is a list of its own (the filter
      builds a fresh one), never the very list object stored under
      ["recent_lies"]. *)

From Stdlib Require Import ZArith Ascii.
From stdpp Require Import gmap strings list fin_maps.

#[local] Set Warnings "-register-all".
#[local] Open Scope Z_scope.

(** ** Values and exceptions *)

Inductive json : Type :=
  | JNull
  | JBool (b : bool)
  | JInt (z : Z)
  | JStr (s : string)
  | JList (l : list json)
  | JDict (m : gmap string json).

Inductive exn : Type :=
  | KeyError
  | TypeError
  | AttributeError
  | JSONDecodeError
  | IOError.

Inductive result (A : Type) : Type :=
  | Ok (a : A)
  | Raise (e : exn).

Arguments Ok {A} a.
Arguments Raise {A} e.

#[export] Instance result_ret : MRet result := λ A a, Ok a.
#[export] Instance result_bind : MBind result :=
  λ A B f r, match r with Ok a => f a | Raise e => Raise e end.
#[export] Instance result_fmap : FMap result :=
  λ A B f r, match r with Ok a => Ok (f a) | Raise e => Raise e end.

(** ** Python primitives used by the script *)

(** [d[k]] on a dict. *)
Definition getitem (d : gmap string json) (k : string) : result json :=
  match d !! k with
  | Some v => Ok v
  | None => Raise KeyError
  end.

(** [d.get(k, dflt)] on a dict. *)
Definition dict_get (d : gmap string json) (k : string) (dflt : json) : json :=
  default dflt (d !! k).

(** [v + n] for an integer [n]: defined on [int] and on [bool] (a subclass of
    [int]), a [TypeError] on [None], [str], [list] and [dict], the other
    values of [json]. *)
Definition add_int (v : json) (n : Z) : result json :=
  match v with
  | JInt z => Ok (JInt (z + n))
  | JBool b => Ok (JInt ((if b then 1 else 0) + n))
  | _ => Raise TypeError
  end.

(** [d[k] += n]: read, add, store. *)
Definition iadd_item (d : gmap string json) (k : string) (n : Z)
  : result (gmap string json) :=
  v ← getitem d k;
  v' ← add_int v n;
  mret (<[k := v']> d).

(** [v.insert(0, x)]: only a list has the method. *)
Definition insert_front (v : json) (x : json) : result json :=
  match v with
  | JList l => Ok (JList (x :: l))
  | _ => Raise AttributeError
  end.

(** [v[:10]]: the first ten items of a list, the first ten characters of a
    string; no other JSON value can be sliced. *)
Definition slice10 (v : json) : result json :=
  match v with
  | JList l => Ok (JList (take 10 l))
  | JStr s => Ok (JStr (String.substring 0 10 s))
  | _ => Raise TypeError
  end.

(** Truth value of a JSON value ([if v:], [not v]). *)
Definition truthy (v : json) : bool :=
  match v with
  | JNull => false
  | JBool b => b
  | JInt z => negb (Z.eqb z 0)
  | JStr s => negb (String.eqb s EmptyString)
  | JList l => match l with [] => false | _ => true end
  | JDict m => negb (bool_decide (m = ∅))
  end.

(** ** Counter Updater: [update_counter] *)

(** The loop [for claim in false_claims: data["recent_lies"].insert(0, claim)].
    Each round looks the list up again and mutates it in place. *)
Fixpoint insert_claims (data : gmap string json) (false_claims : list json)
  : result (gmap string json) :=
  match false_claims with
  | [] => Ok data
  | claim :: rest =>
      lies ← getitem data "recent_lies";
      lies' ← insert_front lies claim;
      insert_claims (<["recent_lies" := lies']> data) rest
  end.

Definition update_counter (data : gmap string json) (false_claims : list json)
  : result (gmap string json) :=
  match false_claims with
  | _ :: _ =>
      let data := <["days_since_lie" := JInt 0]> data in
      data ← iadd_item data "term_2" (Z.of_nat (length false_claims));
      data ← insert_claims data false_claims;
      lies ← getitem data "recent_lies";
      lies' ← slice10 lies;
      mret (<["recent_lies" := lies']> data)
  | [] =>
      iadd_item data "days_since_lie" 1
  end.

(** ** Strings *)

(** One character of [str.lower()] on ASCII text. *)
Definition lower_ascii (c : ascii) : ascii :=
  let n := nat_of_ascii c in
  if ((65 <=? n)%nat && (n <=? 90)%nat)%bool then ascii_of_nat (n + 32) else c.

(** [s.lower()] on the bytes of the string.  Python lowers characters
    outside ASCII as well; the only ones it turns into an ASCII letter are
    U+212A (to "k") and U+0130 (to "i" followed by U+0307), and neither can
    complete one of the keywords the script looks for. *)
Fixpoint lower (s : string) : string :=
  match s with
  | EmptyString => EmptyString
  | String c s' => String (lower_ascii c) (lower s')
  end.

(** [term in s] for two strings: [term] occurs in [s] as a substring. *)
Fixpoint contains (term s : string) : bool :=
  String.prefix term s ||
  match s with
  | EmptyString => false
  | String _ s' => contains term s'
  end.

(** [s.replace('Z', '+00:00')]. *)
Fixpoint replace_Z (s : string) : string :=
  match s with
  | EmptyString => EmptyString
  | String c s' =>
      if Ascii.eqb c "Z"%char then "+00:00" +:+ replace_Z s'
      else String c (replace_Z s')
  end.

(** ** Dates and times

    A [datetime] is kept as the number of microseconds between
    0001-01-01T00:00:00 and the date and time it shows on its own clock
    ([wall]), with its offset from UTC in microseconds ([utcoffset]); a naive
    datetime has no offset. *)

Record datetime : Type := Datetime {
  wall : Z;
  utcoffset : option Z
}.

Definition us_per_second : Z := 1000000.
Definition us_per_day : Z := 86400 * us_per_second.

(** [timedelta(days=n)] and [timedelta(hours=n)] in microseconds. *)
Definition timedelta_days (n : Z) : Z := n * us_per_day.
Definition timedelta_hours (n : Z) : Z := n * 3600 * us_per_second.

(** [d - delta]: the clock moves, the offset stays. *)
Definition dt_sub (d : datetime) (delta : Z) : datetime :=
  {| wall := wall d - delta; utcoffset := utcoffset d |}.

(** The instant of an aware datetime, in microseconds of UTC. *)
Definition instant (w off : Z) : Z := w - off.

(** [a < b].  Two aware datetimes compare by instant, two naive ones by
    their clocks; Python refuses to order a naive against an aware one. *)
Definition dt_lt (a b : datetime) : result bool :=
  match utcoffset a, utcoffset b with
  | Some oa, Some ob => Ok (instant (wall a) oa <? instant (wall b) ob)
  | None, None => Ok (wall a <? wall b)
  | _, _ => Raise TypeError
  end.

(** [datetime.now(timezone.utc)] when the UTC clock reads [clock]. *)
Definition now_utc (clock : Z) : datetime :=
  {| wall := clock; utcoffset := Some 0 |}.

(** The proleptic Gregorian calendar of Python's [datetime] module. *)
Definition is_leap (y : Z) : bool :=
  (y mod 4 =? 0) && (negb (y mod 100 =? 0) || (y mod 400 =? 0)).

Definition days_before_year (y : Z) : Z :=
  let y1 := y - 1 in y1 * 365 + y1 / 4 - y1 / 100 + y1 / 400.

Definition days_in_month (y m : Z) : Z :=
  if m =? 2 then (if is_leap y then 29 else 28)
  else if (m =? 4) || (m =? 6) || (m =? 9) || (m =? 11) then 30
  else 31.

Definition days_before_month (y m : Z) : Z :=
  nth (Z.to_nat m) [0; 0; 31; 59; 90; 120; 151; 181; 212; 243; 273; 304; 334] 0
  + (if (2 <? m) && is_leap y then 1 else 0).

(** Day number of a date, 0001-01-01 being day 1. *)
Definition ymd2ord (y m d : Z) : Z :=
  days_before_year y + days_before_month y m + d.

(** The date of a day number ([_ord2ymd] of the [datetime] module). *)
Definition ord2ymd (ordinal : Z) : Z * Z * Z :=
  let n := ordinal - 1 in
  let n400 := n / 146097 in
  let n := n mod 146097 in
  let n100 := n / 36524 in
  let n := n mod 36524 in
  let n4 := n / 1461 in
  let n := n mod 1461 in
  let n1 := n / 365 in
  let n := n mod 365 in
  let year := n400 * 400 + 1 + n100 * 100 + n4 * 4 + n1 in
  if (n1 =? 4) || (n100 =? 4) then (year - 1, 12, 31)
  else
    let leapyear := (n1 =? 3) && (negb (n4 =? 24) || (n100 =? 3)) in
    let month := Z.shiftr (n + 50) 5 in
    let preceding :=
      days_before_month 1 month + (if (2 <? month) && leapyear then 1 else 0) in
    if n <? preceding then
      let month := month - 1 in
      let preceding :=
        preceding - (days_in_month 1 month
                     + (if (month =? 2) && leapyear then 1 else 0)) in
      (year, month, n - preceding + 1)
    else (year, month, n - preceding + 1).

Definition digit (n : Z) : ascii := ascii_of_nat (48 + Z.to_nat (n mod 10)).

Definition digits2 (n : Z) : string :=
  String (digit (n / 10)) (String (digit n) EmptyString).

Definition digits4 (n : Z) : string := digits2 (n / 100) +:+ digits2 n.

(** [%Y] as the C library of Linux prints it: the year in decimal, without
    padding (the years of a [datetime] run from 1 to 9999). *)
Definition year_digits (y : Z) : string :=
  if y <? 10 then String (digit y) EmptyString
  else if y <? 100 then digits2 y
  else if y <? 1000 then String (digit (y / 100)) (digits2 y)
  else digits4 y.

(** [d.strftime("%Y-%m-%d")]: the date on the datetime's own clock. *)
Definition strftime_ymd (d : datetime) : string :=
  let '(y, m, dd) := ord2ymd (wall d / us_per_day + 1) in
  year_digits y +:+ "-" +:+ digits2 m +:+ "-" +:+ digits2 dd.

(** ** Dynamic typing

    What the operations of the filter do on each kind of JSON value. *)

(** [v.get(k, dflt)]: only a dict has the method. *)
Definition method_get (v : json) (k : string) (dflt : json) : result json :=
  match v with
  | JDict m => Ok (dict_get m k dflt)
  | _ => Raise AttributeError
  end.

(** [v[k]] for a string key [k]: only a dict can be indexed by a string. *)
Definition subscript (v : json) (k : string) : result json :=
  match v with
  | JDict m => getitem m k
  | _ => Raise TypeError
  end.

(** [k in v] for a string [k]: a key of a dict, an item of a list, a
    substring of a string. *)
Definition py_in (k : string) (v : json) : result bool :=
  match v with
  | JDict m => Ok (bool_decide (is_Some (m !! k)))
  | JList l =>
      Ok (existsb (λ x, match x with JStr s => String.eqb s k | _ => false end) l)
  | JStr s => Ok (contains k s)
  | _ => Raise TypeError
  end.

Fixpoint chars (s : string) : list json :=
  match s with
  | EmptyString => []
  | String c s' => JStr (String c EmptyString) :: chars s'
  end.

(** The items a [for] loop draws from [v]: the items of a list, the
    characters of a string, the keys of a dict.  (The keys come in the order
    of the map, which is not Python's insertion order; the script raises on
    the first key it draws from a dict of reviews, and a dict of claims only
    yields strings, whose order does not change what the loop does.) *)
Definition py_iter (v : json) : result (list json) :=
  match v with
  | JList l => Ok l
  | JStr s => Ok (chars s)
  | JDict m => Ok (JStr <$> (map_to_list m).*1)
  | _ => Raise TypeError
  end.

(** [v.lower()]: only a string has the method. *)
Definition method_lower (v : json) : result string :=
  match v with
  | JStr s => Ok (lower s)
  | _ => Raise AttributeError
  end.

(** ** Claim Filter: [check_for_recent_false_claims] *)

Definition keywords : list string :=
  ["false"; "pants on fire"; "lie"; "incorrect"; "wrong"].

(** [any(term in rating for term in [...])]. *)
Definition is_false_rating (rating : string) : bool :=
  existsb (λ term, contains term rating) keywords.

Section Filter.

(** [datetime.fromisoformat]; [None] stands for the [ValueError] it
    raises on a string it does not accept.  The set of accepted strings
    depends on the Python version, so the filter is stated for any
    parser. *)
Variable fromisoformat : string → option datetime.

(** The [try] block: [review_date_str.replace('Z', '+00:00')] parsed by
    [fromisoformat].  A value that is no string has no [replace]
    ([AttributeError]); that error and the parser's [ValueError] are both
    caught, and the review is passed over. *)
Definition parse_review_date (review_date_str : json) : option datetime :=
  match review_date_str with
  | JStr s => fromisoformat (replace_Z s)
  | _ => None
  end.

(** The dict appended for a review that is rated false. *)
Definition flagged_claim (claim review : json) (review_date : datetime)
  : result json :=
  text ← method_get claim "text" (JStr "Unknown claim");
  rating ← method_get review "textualRating" (JStr "Unknown");
  publisher ← method_get review "publisher" (JDict ∅);
  source ← method_get publisher "name" (JStr "Unknown source");
  url ← method_get review "url" (JStr EmptyString);
  mret (JDict {[ "date" := JStr (strftime_ymd review_date);
                 "claim" := text;
                 "rating" := rating;
                 "source" := source;
                 "url" := url ]}).

(** The body of the inner loop for one review: [None] when the review
    adds nothing to the result ([continue], or a rating that is not
    false), [Some c] when the dict [c] is appended. *)
Definition check_review (cutoff_time : datetime) (claim review : json)
  : result (option json) :=
  review_date_str ← method_get review "reviewDate" JNull;
  if negb (truthy review_date_str) then mret None
  else
    match parse_review_date review_date_str with
    | None => mret None
    | Some review_date =>
        early ← dt_lt review_date cutoff_time;
        if early : bool then mret None
        else
          raw ← method_get review "textualRating" (JStr EmptyString);
          rating ← method_lower raw;
          if is_false_rating rating
          then c ← flagged_claim claim review review_date; mret (Some c)
          else mret None
    end.

(** The inner loop, [for review in claim["claimReview"]]. *)
Fixpoint check_reviews (cutoff_time : datetime) (claim : json)
    (reviews : list json) (recent_false_claims : list json)
  : result (list json) :=
  match reviews with
  | [] => Ok recent_false_claims
  | review :: rest =>
      found ← check_review cutoff_time claim review;
      check_reviews cutoff_time claim rest
        (match found with
         | Some c => recent_false_claims ++ [c]
         | None => recent_false_claims
         end)
  end.

(** The outer loop, [for claim in claims]. *)
Fixpoint check_claims (cutoff_time : datetime) (claims : list json)
    (recent_false_claims : list json) : result (list json) :=
  match claims with
  | [] => Ok recent_false_claims
  | claim :: rest =>
      has_reviews ← py_in "claimReview" claim;
      if negb has_reviews then check_claims cutoff_time rest recent_false_claims
      else
        claim_review ← subscript claim "claimReview";
        reviews ← py_iter claim_review;
        acc ← check_reviews cutoff_time claim reviews recent_false_claims;
        check_claims cutoff_time rest acc
  end.

(** [clock] is what the UTC clock reads when the function is called. *)
Definition check_for_recent_false_claims (clock : Z) (claims : json)
  : result (list json) :=
  let now := now_utc clock in
  let cutoff_time := dt_sub now (timedelta_days 1) in
  items ← py_iter claims;
  check_claims cutoff_time items [].

End Filter.

(** ** A parser to run the filter on

    [fromisoformat_plain] reads the three shapes that every Python version
    reads: [YYYY-MM-DD], [YYYY-MM-DD?HH:MM:SS] (any one character between date
    and time) and the latter followed by [+HH:MM] or [-HH:MM].  It rejects
    everything else, which newer Python versions do not; it serves to run
    the filter on concrete reviews, the properties below hold for every
    parser. *)

Definition digit_val (c : ascii) : option Z :=
  let n := nat_of_ascii c in
  if ((48 <=? n)%nat && (n <=? 57)%nat)%bool then Some (Z.of_nat (n - 48)) else None.

Definition num2 (c1 c2 : ascii) : option Z :=
  a ← digit_val c1; b ← digit_val c2; Some (10 * a + b).

Definition num4 (c1 c2 c3 c4 : ascii) : option Z :=
  a ← num2 c1 c2; b ← num2 c3 c4; Some (100 * a + b).

Definition make_wall (y m d hh mm ss : Z) : option Z :=
  if (1 <=? y) && (y <=? 9999) && (1 <=? m) && (m <=? 12) &&
     (1 <=? d) && (d <=? days_in_month y m) &&
     (hh <=? 23) && (mm <=? 59) && (ss <=? 59)
  then Some ((ymd2ord y m d - 1) * us_per_day
             + ((hh * 60 + mm) * 60 + ss) * us_per_second)
  else None.

(** The offset [+HH:MM] or [-HH:MM]; Python accepts an offset strictly
    between minus and plus 24 hours. *)
Definition parse_offset (s : string) : option Z :=
  match s with
  | String sg (String h1 (String h2 (String ":" (String m1 (String m2 EmptyString))))) =>
      hh ← num2 h1 h2;
      mm ← num2 m1 m2;
      let off := (hh * 60 + mm) * 60 * us_per_second in
      if negb (off <? us_per_day) then None
      else if Ascii.eqb sg "+" then Some off
      else if Ascii.eqb sg "-" then Some (- off)
      else None
  | _ => None
  end.

Definition fromisoformat_plain (s : string) : option datetime :=
  match s with
  | String y1 (String y2 (String y3 (String y4 (String "-"
      (String m1 (String m2 (String "-" (String d1 (String d2 rest))))))))) =>
      y ← num4 y1 y2 y3 y4;
      m ← num2 m1 m2;
      d ← num2 d1 d2;
      match rest with
      | EmptyString =>
          w ← make_wall y m d 0 0 0;
          Some {| wall := w; utcoffset := None |}
      | String _ (String h1 (String h2 (String ":" (String n1 (String n2
          (String ":" (String s1 (String s2 zone)))))))) =>
          hh ← num2 h1 h2;
          mm ← num2 n1 n2;
          ss ← num2 s1 s2;
          w ← make_wall y m d hh mm ss;
          match zone with
          | EmptyString => Some {| wall := w; utcoffset := None |}
          | _ => off ← parse_offset zone; Some {| wall := w; utcoffset := Some off |}
          end
      | _ => None
      end
  | _ => None
  end.

(** The UTC clock reading at a date and time of day. *)
Definition clock_at (y m d hh mm ss : Z) : Z :=
  (ymd2ord y m d - 1) * us_per_day + ((hh * 60 + mm) * 60 + ss) * us_per_second.

(** ** The outside world: file, environment, service, clock *)

(** [data.json]: missing, present with text that is not JSON, or present
    with a JSON value. *)
Inductive file_state : Type :=
  | Absent
  | Malformed
  | Content (v : json).

(** What [requests.get] and [raise_for_status] and [response.json()] give:
    a [RequestException] (transport fault, status that is no success, body
    that is no JSON), or the decoded body. *)
Inductive http_outcome : Type :=
  | RequestFailed
  | Body (data : json).

Record world : Type := World {
  data_json : file_state;          (* the state file *)
  disk_ok : bool;                  (* does a write of [data.json] go through *)
  open_ok : bool;                  (* when it does not: was the file opened,
                                      and so emptied, before the failure *)
  environ_key : option string;     (* [GOOGLE_FACT_CHECK_API_KEY] *)
  service : http_outcome;          (* the answer of the fact-check service *)
  clock : Z;                       (* the UTC clock, in microseconds *)
  writes : list json;              (* values written to the file, oldest first *)
  requests_sent : nat              (* calls made to the service *)
}.

(** A step of the script: it reads and changes the world, and returns a
    value or raises. *)
Definition io (A : Type) : Type := world → result A * world.

#[export] Instance io_ret : MRet io := λ A a w, (Ok a, w).
#[export] Instance io_bind : MBind io :=
  λ A B f c w,
    match c w with
    | (Ok a, w') => f a w'
    | (Raise e, w') => (Raise e, w')
    end.

(** A computation without effect, run as a step. *)
Definition lift {A} (r : result A) : io A := λ w, (r, w).

(** ** State Store: [save_data] and [load_data]

    [open('data.json', 'w')] creates the file or empties it before
    [json.dump] writes.  A write that fails at the open leaves the file as
    it was; a write that fails later leaves an empty or partial text, which
    is no JSON.  [writes] logs the writes that went through. *)

Definition save_data (data : json) : io unit :=
  λ w,
    if disk_ok w
    then (Ok (),
          {| data_json := Content data;
             disk_ok := disk_ok w;
             open_ok := open_ok w;
             environ_key := environ_key w;
             service := service w;
             clock := clock w;
             writes := writes w ++ [data];
             requests_sent := requests_sent w |})
    else if open_ok w
    then (Raise IOError,
          {| data_json := Malformed;
             disk_ok := disk_ok w;
             open_ok := open_ok w;
             environ_key := environ_key w;
             service := service w;
             clock := clock w;
             writes := writes w;
             requests_sent := requests_sent w |})
    else (Raise IOError, w).

Definition default_data : json :=
  JDict {[ "days_since_lie" := JInt 0;
           "term_1" := JInt 30573;
           "term_2" := JInt 0;
           "recent_lies" := JList [] ]}.

Definition load_data : io json :=
  λ w,
    match data_json w with
    | Content v => (Ok v, w)
    | Absent => (save_data default_data ≫= λ _, mret default_data) w
    | Malformed => (Raise JSONDecodeError, w)
    end.

(** ** Fact-Check Client: [fetch_fact_checks] *)

(** The value the client returns for an outcome of the request: the empty
    list when the request failed, [data.get("claims", [])] otherwise. *)
Definition claims_of (o : http_outcome) : result json :=
  match o with
  | RequestFailed => Ok (JList [])
  | Body data => method_get data "claims" (JList [])
  end.

Definition fetch_fact_checks (api_key : string) : io json :=
  λ w,
    let w' := {| data_json := data_json w;
                 disk_ok := disk_ok w;
                 open_ok := open_ok w;
                 environ_key := environ_key w;
                 service := service w;
                 clock := clock w;
                 writes := writes w;
                 requests_sent := S (requests_sent w) |} in
    (claims_of (service w), w').

(** ** Orchestrator: [main] *)

(** [data["days_since_lie"] += 1] on what [load_data] returned; a value
    that is no dict cannot be indexed by a string. *)
Definition increment_days (data : json) : result json :=
  match data with
  | JDict m => JDict <$> iadd_item m "days_since_lie" 1
  | _ => Raise TypeError
  end.

(** [update_counter(data, false_claims)] on what [load_data] returned. *)
Definition update_loaded (data : json) (false_claims : list json) : result json :=
  match data with
  | JDict m => JDict <$> update_counter m false_claims
  | _ => Raise TypeError
  end.

Section Main.

Variable fromisoformat : string → option datetime.

Definition main : io unit :=
  λ w,
    match environ_key w with
    | None | Some EmptyString =>
        (data ← load_data;
         data ← lift (increment_days data);
         save_data data) w
    | Some api_key =>
        (data ← load_data;
         claims ← fetch_fact_checks api_key;
         if negb (truthy claims)
         then
           data ← lift (increment_days data);
           save_data data
         else
           false_claims ←
             (λ w, lift (check_for_recent_false_claims fromisoformat
                           (clock w) claims) w);
           data ← lift (update_loaded data false_claims);
           save_data data) w
    end.

End Main.

(** ** Inputs used in the examples *)

Definition lie (n : Z) : json := JDict {[ "claim" := JInt n ]}.

(** A record whose history holds eleven entries. *)
Definition eleven_lies : gmap string json :=
  {[ "days_since_lie" := JInt 5;
     "term_1" := JInt 30573;
     "term_2" := JInt 11;
     "recent_lies" := JList (lie <$> [1; 2; 3; 4; 5; 6; 7; 8; 9; 10; 11]) ]}.

(** Twelve flagged claims. *)
Definition twelve_lies : list json :=
  lie <$> [1; 2; 3; 4; 5; 6; 7; 8; 9; 10; 11; 12].

(** The record of the specification's scenario. *)
Definition five_days : gmap string json :=
  {[ "days_since_lie" := JInt 5;
     "term_1" := JInt 30573;
     "term_2" := JInt 10;
     "recent_lies" := JList [] ]}.

(** A review as the service sends it, and a claim that carries reviews. *)
Definition review_rated (date rating : string) : gmap string json :=
  {[ "reviewDate" := JStr date;
     "textualRating" := JStr rating;
     "publisher" := JDict {[ "name" := JStr "PolitiFact" ]};
     "url" := JStr "https://example.org/review" ]}.

Definition claim_with (reviews : list json) : gmap string json :=
  {[ "text" := JStr "The moon is made of cheese";
     "claimReview" := JList reviews ]}.

(** A review that carries nothing but its date. *)
Definition review_bare (date : string) : gmap string json :=
  {[ "reviewDate" := JStr date ]}.



(** 2024-03-02 at noon, UTC. *)
Definition noon : Z := clock_at 2024 3 2 12 0 0.

(** Two reviews of one claim, the second without a rating, and what the
    filter returns for them at [noon]. *)
Definition two_reviews : json :=
  JList [JDict (claim_with [JDict (review_rated "2024-03-01T13:00:00Z" "False");
                            JDict (review_bare "2024-03-02T09:00:00Z")])].

Definition one_flagged : list json :=
  [JDict {[ "date" := JStr "2024-03-01";
            "claim" := JStr "The moon is made of cheese";
            "rating" := JStr "False";
            "source" := JStr "PolitiFact";
            "url" := JStr "https://example.org/review" ]}].

(** Worlds to run [main] in: no credential, a service that is never
    reached, the clock at [noon]. *)
Definition world_with (f : file_state) : world :=
  {| data_json := f;
     disk_ok := true;
     open_ok := true;
     environ_key := None;
     service := RequestFailed;
     clock := noon;
     writes := [];
     requests_sent := 0 |}.

(** A world with a credential, in which the service answers with the two
    reviews above. *)
Definition world_served (f : file_state) : world :=
  {| data_json := f;
     disk_ok := true;
     open_ok := true;
     environ_key := Some "secret";
     service := Body (JDict {[ "claims" := two_reviews ]});
     clock := noon;
     writes := [];
     requests_sent := 0 |}.

(** Does [ord2ymd] undo [ymd2ord] at day number [ordinal], and give a
    date of the calendar? *)
Definition calendar_agrees_at (ordinal : Z) : bool :=
  let '(y, m, d) := ord2ymd ordinal in
  (ymd2ord y m d =? ordinal) && (1 <=? m) && (m <=? 12) &&
  (1 <=? d) && (d <=? days_in_month y m).

(** The same on the [n] days from day number [start] on. *)
Definition calendar_agrees (start : Z) (n : positive) : bool :=
  snd (Pos.iter (λ '(ordinal, ok), (ordinal + 1, ok && calendar_agrees_at ordinal))
                (start, true) n).

(** ** Inputs used for the further properties *)

(** A record without the key ["term_2"]. *)
Definition no_total : gmap string json :=
  {[ "days_since_lie" := JInt 5;
     "term_1" := JInt 30573;
     "recent_lies" := JList [] ]}.

(** A record whose history is a string. *)
Definition history_as_text : gmap string json :=
  {[ "days_since_lie" := JInt 5;
     "term_1" := JInt 30573;
     "term_2" := JInt 10;
     "recent_lies" := JStr "none" ]}.

(** The eleven entries of [eleven_lies]. *)
Definition eleven_entries : list json :=
  lie <$> [1; 2; 3; 4; 5; 6; 7; 8; 9; 10; 11].

(** The world [w] with another answer of the service. *)
Definition with_service (o : http_outcome) (w : world) : world :=
  {| data_json := data_json w;
     disk_ok := disk_ok w;
     open_ok := open_ok w;
     environ_key := environ_key w;
     service := o;
     clock := clock w;
     writes := writes w;
     requests_sent := requests_sent w |}.

(** The world [w] with a state file that cannot be opened for writing. *)
Definition read_only (w : world) : world :=
  {| data_json := data_json w;
     disk_ok := false;
     open_ok := false;
     environ_key := environ_key w;
     service := service w;
     clock := clock w;
     writes := writes w;
     requests_sent := requests_sent w |}.

(** The world [w] with a disk on which a write fails after the open. *)
Definition disk_full (w : world) : world :=
  {| data_json := data_json w;
     disk_ok := false;
     open_ok := true;
     environ_key := environ_key w;
     service := service w;
     clock := clock w;
     writes := writes w;
     requests_sent := requests_sent w |}.

(** The record of the scenario after the one flagged review of
    [two_reviews] has been counted. *)
Definition after_flagged : gmap string json :=
  {[ "days_since_lie" := JInt 0;
     "term_1" := JInt 30573;
     "term_2" := JInt 11;
     "recent_lies" := JList one_flagged ]}.

(** The entry of [one_flagged]. *)
Definition flagged_entry : json :=
  JDict {[ "date" := JStr "2024-03-01";
           "claim" := JStr "The moon is made of cheese";
           "rating" := JStr "False";
           "source" := JStr "PolitiFact";
           "url" := JStr "https://example.org/review" ]}.

(** A claim that carries its text only. *)
Definition claim_bare : gmap string json :=
  {[ "text" := JStr "The moon is made of cheese" ]}.

(* ================================================================== *)
(** * Properties *)

(** ** The result monad *)

Lemma bind_Ok {A B} (f : A → result B) (a : A) : (Ok a ≫= f) = f a.
Proof. reflexivity. Qed.

Lemma bind_Ok_inv {A B} (f : A → result B) (r : result A) (b : B) :
  (r ≫= f) = Ok b → ∃ a, r = Ok a ∧ f a = Ok b.
Proof. destruct r as [a|e]; [eauto | discriminate]. Qed.

Lemma getitem_Some (d : gmap string json) k v : d !! k = Some v → getitem d k = Ok v.
Proof. unfold getitem. by intros ->. Qed.

(** Push a computation through the steps that have already succeeded. *)
Ltac run_ok :=
  repeat first
    [ rewrite bind_Ok
    | progress cbn [mret result_ret add_int insert_front slice10] ].

(** ** Counter Updater *)

(** After the insertion loop the history holds the new claims in reverse
    order in front of the old entries; nothing else moved. *)
Lemma insert_claims_spec (L : list json) :
  ∀ (data : gmap string json) (r : list json),
    data !! "recent_lies" = Some (JList r) →
    insert_claims data L = Ok (<["recent_lies" := JList (rev L ++ r)]> data).
Proof.
  induction L as [|c L IH]; intros data r Hr; simpl.
  - by rewrite insert_id.
  - rewrite (getitem_Some _ _ _ Hr); simpl.
    rewrite (IH _ (c :: r)) by apply lookup_insert_eq.
    by rewrite insert_insert_eq, <- app_assoc.
Qed.

(** The state returned for a non-empty list of flagged claims. *)
Lemma update_counter_nonempty (state : gmap string json) (L r : list json) (t : Z) :
  L ≠ [] →
  state !! "term_2" = Some (JInt t) →
  state !! "recent_lies" = Some (JList r) →
  update_counter state L =
    Ok (<["recent_lies" := JList (take 10 (rev L ++ r))]>
         (<["term_2" := JInt (t + Z.of_nat (length L))]>
           (<["days_since_lie" := JInt 0]> state))).
Proof.
  intros HL Ht Hr. destruct L as [|c L]; [done|].
  unfold update_counter, iadd_item.
  rewrite (getitem_Some _ "term_2" (JInt t)) by by simplify_map_eq.
  run_ok.
  rewrite (insert_claims_spec _ _ r) by by simplify_map_eq.
  run_ok.
  rewrite (getitem_Some _ _ _ (lookup_insert_eq _ _ _)).
  run_ok.
  by rewrite insert_insert_eq.
Qed.

(** The state returned for an empty list of flagged claims. *)
Lemma update_counter_empty (state : gmap string json) (d : Z) :
  state !! "days_since_lie" = Some (JInt d) →
  update_counter state [] = Ok (<["days_since_lie" := JInt (d + 1)]> state).
Proof.
  intros Hd. unfold update_counter, iadd_item.
  by rewrite (getitem_Some _ _ _ Hd).
Qed.

(** C1.  For a non-empty list [L] of flagged claims, [update_counter]
    returns a state whose ["days_since_lie"] is 0 and whose ["term_2"] is
    the former ["term_2"] plus the length of [L]. *)
Theorem update_counter_resets_and_counts
    (state : gmap string json) (L r : list json) (t : Z) :
  L ≠ [] →
  state !! "term_2" = Some (JInt t) →
  state !! "recent_lies" = Some (JList r) →
  ∃ state', update_counter state L = Ok state' ∧
        state' !! "days_since_lie" = Some (JInt 0) ∧
        state' !! "term_2" = Some (JInt (t + Z.of_nat (length L))).
Proof.
  intros HL Ht Hr. eexists. split.
  - by apply update_counter_nonempty.
  - by simplify_map_eq.
Qed.

(** On the record of the scenario and one flagged claim. *)
Lemma update_counter_resets_and_counts_witness :
  ∃ state', update_counter five_days [lie 1] = Ok state' ∧
        state' !! "days_since_lie" = Some (JInt 0) ∧
        state' !! "term_2" = Some (JInt (10 + Z.of_nat (length [lie 1]))).
Proof.
  apply (update_counter_resets_and_counts five_days [lie 1] [] 10);
    [discriminate | reflexivity | reflexivity].
Defined.

(** C2.  With no flagged claim, [update_counter] adds one to
    ["days_since_lie"] and leaves every other field as it was, among them
    ["term_1"], ["term_2"] and ["recent_lies"]. *)
Theorem update_counter_empty_frame (state : gmap string json) (d : Z) :
  state !! "days_since_lie" = Some (JInt d) →
  ∃ state', update_counter state [] = Ok state' ∧
        state' !! "days_since_lie" = Some (JInt (d + 1)) ∧
        (∀ k, k ≠ "days_since_lie" → state' !! k = state !! k) ∧
        state' !! "term_1" = state !! "term_1" ∧
        state' !! "term_2" = state !! "term_2" ∧
        state' !! "recent_lies" = state !! "recent_lies".
Proof.
  intros Hd. eexists. split; [by apply update_counter_empty|].
  split; [by simplify_map_eq|].
  split; [intros k Hk; by rewrite lookup_insert_ne|].
  by simplify_map_eq.
Qed.

(** On the record of the scenario. *)
Lemma update_counter_empty_frame_witness :
  ∃ state', update_counter five_days [] = Ok state' ∧
        state' !! "days_since_lie" = Some (JInt (5 + 1)) ∧
        (∀ k, k ≠ "days_since_lie" → state' !! k = five_days !! k) ∧
        state' !! "term_1" = five_days !! "term_1" ∧
        state' !! "term_2" = five_days !! "term_2" ∧
        state' !! "recent_lies" = five_days !! "recent_lies".
Proof. apply (update_counter_empty_frame five_days 5). reflexivity. Defined.

(** C3.  For a non-empty list [L], the history after [update_counter] is
    the first ten entries of [L] reversed followed by the former history;
    the claim processed last comes first. *)
Theorem update_counter_history_reversed
    (state : gmap string json) (L r : list json) (t : Z) :
  L ≠ [] →
  state !! "term_2" = Some (JInt t) →
  state !! "recent_lies" = Some (JList r) →
  ∃ state' h, update_counter state L = Ok state' ∧
          state' !! "recent_lies" = Some (JList h) ∧
          h = take 10 (rev L ++ r) ∧
          head h = last L.
Proof.
  intros HL Ht Hr. eexists _, _. split; [by apply update_counter_nonempty|].
  split; [by simplify_map_eq|]. split; [done|].
  destruct L as [|c L _] using rev_ind; [done|].
  by rewrite rev_unit, last_snoc.
Qed.

(** On the record of the scenario and two flagged claims. *)
Lemma update_counter_history_reversed_witness :
  ∃ state' h, update_counter five_days [lie 1; lie 2] = Ok state' ∧
          state' !! "recent_lies" = Some (JList h) ∧
          h = take 10 (rev [lie 1; lie 2] ++ []) ∧
          head h = last [lie 1; lie 2].
Proof.
  apply (update_counter_history_reversed five_days [lie 1; lie 2] [] 10);
    [discriminate | reflexivity | reflexivity].
Defined.

(** C4.  For every state whose history holds at most ten entries, as the
    invariant of the record has it, and every list of flagged claims, of
    any size, the history after [update_counter] has at most ten entries.
    With a non-empty list that holds whatever the history held before. *)
Theorem update_counter_history_bounded
    (state : gmap string json) (L r : list json) (d t : Z) :
  state !! "days_since_lie" = Some (JInt d) →
  state !! "term_2" = Some (JInt t) →
  state !! "recent_lies" = Some (JList r) →
  L ≠ [] ∨ (length r ≤ 10)%nat →
  ∃ state' h, update_counter state L = Ok state' ∧
          state' !! "recent_lies" = Some (JList h) ∧
          (length h ≤ 10)%nat.
Proof.
  intros Hd Ht Hr Hor. destruct L as [|c L].
  - destruct Hor as [|Hlen]; [done|].
    eexists _, r. split; [by apply (update_counter_empty _ d)|].
    split; [by simplify_map_eq|done].
  - eexists _, _. split; [by apply (update_counter_nonempty _ _ r t)|].
    split; [by simplify_map_eq|].
    rewrite length_take. lia.
Qed.

(** On the record of the scenario and twelve flagged claims. *)
Lemma update_counter_history_bounded_witness :
  ∃ state' h, update_counter five_days twelve_lies = Ok state' ∧
          state' !! "recent_lies" = Some (JList h) ∧
          (length h ≤ 10)%nat.
Proof.
  apply (update_counter_history_bounded five_days twelve_lies [] 5 10);
    [reflexivity | reflexivity | reflexivity | right; simpl; lia].
Defined.

(** The scenario of the specification: five days, one claim flagged. *)
Example update_counter_scenario :
  update_counter five_days [lie 1] =
    Ok {[ "days_since_lie" := JInt 0;
          "term_1" := JInt 30573;
          "term_2" := JInt 11;
          "recent_lies" := JList [lie 1] ]}.
Proof. vm_compute. reflexivity. Qed.

(** ** The calendar *)

(** Dates and day numbers agree from 2000-01-01 to the end of 2100, a span
    with a leap century year and a century year that is not one. *)
Example calendar_agrees_2000_2100 : calendar_agrees (ymd2ord 2000 1 1) 36890 = true.
Proof. vm_compute. reflexivity. Qed.

(** A year of three digits is printed with three digits. *)
Example strftime_year_999 :
  strftime_ymd {| wall := clock_at 999 6 15 0 0 0; utcoffset := Some 0 |}
    = "999-06-15".
Proof. vm_compute. reflexivity. Qed.

Example strftime_leap_day :
  strftime_ymd {| wall := clock_at 2024 2 29 23 59 59; utcoffset := Some 0 |}
    = "2024-02-29".
Proof. vm_compute. reflexivity. Qed.

(** ** Strings *)

Lemma append_cons (c : ascii) (s1 s2 : string) :
  String c s1 +:+ s2 = String c (s1 +:+ s2).
Proof. reflexivity. Qed.

Lemma append_empty (s : string) : EmptyString +:+ s = s.
Proof. reflexivity. Qed.

Lemma prefix_spec (t s : string) :
  String.prefix t s = true ↔ ∃ post, s = t +:+ post.
Proof.
  revert t. induction s as [|b s IH]; intros [|a t]; simpl.
  - split; [by exists EmptyString|done].
  - split; [done|]. intros [post H]. by rewrite append_cons in H.
  - split; [by exists (String b s)|done].
  - destruct (ascii_dec a b) as [->|Hne].
    + rewrite IH. split; intros [post H]; exists post.
      * by rewrite append_cons, H.
      * rewrite append_cons in H. by injection H.
    + split; [done|]. intros [post H]. rewrite append_cons in H.
      injection H as Hb _. by destruct Hne.
Qed.

(** [contains term s] holds exactly when [term] is a substring of [s]. *)
Lemma contains_spec (t s : string) :
  contains t s = true ↔ ∃ pre post, s = pre +:+ t +:+ post.
Proof.
  induction s as [|b s IH].
  - cbn [contains]. rewrite orb_false_r, prefix_spec. split.
    + intros [post H]. by exists EmptyString, post.
    + intros (pre & post & H). destruct pre as [|c pre]; [by exists post|].
      by rewrite append_cons in H.
  - cbn [contains]. rewrite orb_true_iff, prefix_spec, IH. split.
    + intros [[post H]|(pre & post & H)].
      * by exists EmptyString, post.
      * exists (String b pre), post. by rewrite append_cons, H.
    + intros (pre & post & H). destruct pre as [|c pre].
      * left. by exists post.
      * right. exists pre, post. rewrite append_cons in H. by injection H.
Qed.

(** A rating is false exactly when one of the keywords is a substring. *)
Lemma is_false_rating_spec (rating : string) :
  is_false_rating rating = true ↔
  ∃ term, term ∈ keywords ∧ ∃ pre post, rating = pre +:+ term +:+ post.
Proof.
  unfold is_false_rating. rewrite existsb_exists. split.
  - intros (term & Hin & Hc). exists term.
    split; [by apply list_elem_of_In|by apply contains_spec].
  - intros (term & Hin & Hsub). exists term.
    split; [by apply list_elem_of_In|by apply contains_spec].
Qed.

(** ** Claim Filter *)

Lemma truthy_JStr (s : string) : s ≠ EmptyString → truthy (JStr s) = true.
Proof.
  intros Hs. cbn [truthy]. destruct (String.eqb_spec s EmptyString); [done|reflexivity].
Qed.

(** Against the cutoff of the filter an aware datetime is ordered by its
    instant. *)
Lemma dt_lt_cutoff (w off clock : Z) :
  dt_lt {| wall := w; utcoffset := Some off |}
        (dt_sub (now_utc clock) (timedelta_days 1))
  = Ok (instant w off <? clock - us_per_day).
Proof.
  unfold dt_lt, dt_sub, now_utc, timedelta_days, instant; cbn [wall utcoffset].
  do 2 f_equal. lia.
Qed.

(** A naive datetime cannot be ordered against the cutoff. *)
Lemma dt_lt_cutoff_naive (w clock : Z) :
  dt_lt {| wall := w; utcoffset := None |}
        (dt_sub (now_utc clock) (timedelta_days 1))
  = Raise TypeError.
Proof. reflexivity. Qed.

(** The dict built for a flagged review: every field that is missing takes
    the fallback written in the code. *)
Lemma flagged_claim_fields (cm m : gmap string json) (rd : datetime) (source : json) :
  method_get (default (JDict ∅) (m !! "publisher")) "name" (JStr "Unknown source")
    = Ok source →
  flagged_claim (JDict cm) (JDict m) rd =
    Ok (JDict {[ "date" := JStr (strftime_ymd rd);
                 "claim" := default (JStr "Unknown claim") (cm !! "text");
                 "rating" := default (JStr "Unknown") (m !! "textualRating");
                 "source" := source;
                 "url" := default (JStr EmptyString) (m !! "url") ]}).
Proof.
  intros Hsrc. unfold flagged_claim. cbn [method_get]. rewrite ?bind_Ok.
  unfold dict_get. rewrite Hsrc. by rewrite ?bind_Ok.
Qed.

(** The publisher's name, when the publisher is missing or is a dict. *)
Lemma publisher_name (m : gmap string json) :
  m !! "publisher" = None ∨ (∃ pm, m !! "publisher" = Some (JDict pm)) →
  ∃ source,
    method_get (default (JDict ∅) (m !! "publisher")) "name" (JStr "Unknown source")
      = Ok source.
Proof. intros [->|[pm ->]]; simpl; eauto. Qed.

Section FilterProperties.

Variable fromisoformat : string → option datetime.

(** A review with a date that parses reaches the test of the window. *)
Lemma check_review_dated (cutoff_time : datetime) (claim : json)
    (m : gmap string json) (s : string) (rd : datetime) :
  m !! "reviewDate" = Some (JStr s) →
  s ≠ EmptyString →
  fromisoformat (replace_Z s) = Some rd →
  check_review fromisoformat cutoff_time claim (JDict m) =
    (early ← dt_lt rd cutoff_time;
     if early : bool then mret None
     else
       rating ← method_lower (default (JStr EmptyString) (m !! "textualRating"));
       if is_false_rating rating
       then c ← flagged_claim claim (JDict m) rd; mret (Some c)
       else mret None).
Proof.
  intros Hd Hs Hp. unfold check_review. cbn [method_get]. rewrite ?bind_Ok.
  unfold dict_get. rewrite Hd. change (default JNull (Some (JStr s))) with (JStr s).
  rewrite (truthy_JStr _ Hs). cbn [negb parse_review_date]. rewrite Hp.
  destruct (dt_lt rd cutoff_time) as [[|]|e]; reflexivity.
Qed.

(** A review without a rating is never flagged: its rating reads as the
    empty string, which holds no keyword. *)
Lemma check_review_unrated (cutoff_time : datetime) (claim : json)
    (m : gmap string json) (c : json) :
  m !! "textualRating" = None →
  check_review fromisoformat cutoff_time claim (JDict m) ≠ Ok (Some c).
Proof.
  intros Hr. unfold check_review. cbn [method_get]. rewrite ?bind_Ok.
  destruct (negb _); [discriminate|].
  destruct (parse_review_date _ _) as [rd|]; [|discriminate].
  destruct (dt_lt rd cutoff_time) as [[|]|e]; try discriminate.
  rewrite ?bind_Ok. unfold dict_get. rewrite Hr. discriminate.
Qed.

(** What a flagged review looks like: it is a dict with a textual rating
    that holds a keyword, and the dict appended carries that rating. *)
Lemma check_review_Some_inv (cutoff_time : datetime) (claim review c : json) :
  check_review fromisoformat cutoff_time claim review = Ok (Some c) →
  ∃ (m fields : gmap string json) (r : string),
    review = JDict m ∧
    m !! "textualRating" = Some (JStr r) ∧
    is_false_rating (lower r) = true ∧
    c = JDict fields ∧
    fields !! "rating" = Some (JStr r).
Proof.
  destruct review as [| | | | |m]; try discriminate.
  unfold check_review. cbn [method_get]. rewrite ?bind_Ok.
  destruct (negb _); [discriminate|].
  destruct (parse_review_date _ _) as [rd|]; [|discriminate].
  destruct (dt_lt rd cutoff_time) as [[|]|e]; try discriminate.
  rewrite ?bind_Ok. unfold dict_get at 1.
  destruct (m !! "textualRating") as [raw|] eqn:Hraw; [|discriminate].
  destruct raw as [| | |r| |]; try discriminate.
  cbn [from_option id method_lower]. rewrite bind_Ok.
  destruct (is_false_rating (lower r)) eqn:Hfalse; [|discriminate].
  unfold flagged_claim.
  destruct (method_get claim _ _) as [text|]; [|discriminate].
  cbn [method_get]. rewrite ?bind_Ok.
  destruct (method_get (dict_get m "publisher" _) _ _) as [source|];
    [|discriminate].
  rewrite ?bind_Ok. cbn [mret result_ret]. intros [= <-].
  eexists m, _, r. repeat split; try done.
  unfold dict_get. rewrite Hraw. by simplify_map_eq.
Qed.

(** The inner loop appends what the body returns, review after review. *)
Lemma check_reviews_inv (cutoff_time : datetime) (claim : json)
    (reviews : list json) :
  ∀ acc out,
    check_reviews fromisoformat cutoff_time claim reviews acc = Ok out →
    ∃ founds : list (option json),
      Forall2 (λ review found,
                 check_review fromisoformat cutoff_time claim review = Ok found)
              reviews founds ∧
      out = acc ++ omap id founds.
Proof.
  induction reviews as [|review rest IH]; intros acc out; cbn [check_reviews].
  - intros [= <-]. exists []. split; [constructor|by rewrite app_nil_r].
  - intros H. apply bind_Ok_inv in H as (found & Hfound & H).
    apply IH in H as (founds & Hall & ->).
    exists (found :: founds). split; [by constructor|].
    destruct found; cbn; [by rewrite <- app_assoc|done].
Qed.

(** Every dict in the result of the filter was appended by the body of
    the loop for some review. *)
Lemma check_claims_elem (cutoff_time : datetime) (claims : list json) :
  ∀ acc out c,
    check_claims fromisoformat cutoff_time claims acc = Ok out →
    c ∈ out →
    c ∈ acc ∨
    ∃ claim review,
      claim ∈ claims ∧
      check_review fromisoformat cutoff_time claim review = Ok (Some c).
Proof.
  induction claims as [|claim rest IH]; intros acc out c; cbn [check_claims].
  - intros [= <-]. by left.
  - intros H Hc. apply bind_Ok_inv in H as (has & _ & H).
    destruct has; cbn [negb] in H.
    + apply bind_Ok_inv in H as (cr & _ & H).
      apply bind_Ok_inv in H as (reviews & _ & H).
      apply bind_Ok_inv in H as (acc' & Hacc' & H).
      destruct (IH _ _ _ H Hc) as [Hin|(claim' & review & Hin & Hrev)].
      * apply check_reviews_inv in Hacc' as (founds & Hall & ->).
        apply elem_of_app in Hin as [Hin|Hin]; [by left|].
        right. apply list_elem_of_omap in Hin as (found & Hfound & Hid).
        cbn in Hid. subst found.
        apply list_elem_of_lookup in Hfound as [i Hi].
        destruct (Forall2_lookup_r _ _ _ _ _ Hall Hi) as (review & Hri & Hrv).
        exists claim, review. split; [apply list_elem_of_here|done].
      * right. exists claim', review. split; [by apply list_elem_of_further|done].
    + destruct (IH _ _ _ H Hc) as [Hin|(claim' & review & Hin & Hrev)].
      * by left.
      * right. exists claim', review. split; [by apply list_elem_of_further|done].
Qed.

(** The inner loop ran the body on each of its reviews, and what the body
    flagged is in the result, after what was there before. *)
Lemma check_reviews_incl (cutoff_time : datetime) (claim : json)
    (reviews acc out : list json) (review : json) :
  check_reviews fromisoformat cutoff_time claim reviews acc = Ok out →
  (∀ c, c ∈ acc → c ∈ out) ∧
  (review ∈ reviews →
   ∃ found, check_review fromisoformat cutoff_time claim review = Ok found ∧
            ∀ c, found = Some c → c ∈ out).
Proof.
  intros H. apply check_reviews_inv in H as (founds & Hall & ->). split.
  - intros c Hc. apply elem_of_app. by left.
  - intros Hin. apply list_elem_of_lookup in Hin as [i Hi].
    destruct (Forall2_lookup_l _ _ _ _ _ Hall Hi) as (found & Hfi & Hfound).
    exists found. split; [done|]. intros c ->.
    apply elem_of_app. right. apply list_elem_of_omap.
    exists (Some c). split; [|done]. apply list_elem_of_lookup. eauto.
Qed.

(** The same for the outer loop: for a claim that is a dict with a list of
    reviews, the body ran on each review and what it flagged is in the
    result. *)
Lemma check_claims_incl (cutoff_time : datetime) (claims : list json)
    (cm : gmap string json) (reviews : list json) (review : json) :
  ∀ acc out,
    check_claims fromisoformat cutoff_time claims acc = Ok out →
    (∀ c, c ∈ acc → c ∈ out) ∧
    (JDict cm ∈ claims →
     cm !! "claimReview" = Some (JList reviews) →
     review ∈ reviews →
     ∃ found,
       check_review fromisoformat cutoff_time (JDict cm) review = Ok found ∧
       ∀ c, found = Some c → c ∈ out).
Proof.
  induction claims as [|claim rest IH]; intros acc out; cbn [check_claims].
  - intros [= <-]. split; [done|]. intros Hin. by apply elem_of_nil in Hin.
  - intros H. apply bind_Ok_inv in H as (has & Hhas & H).
    destruct has; cbn [negb] in H.
    + apply bind_Ok_inv in H as (cr & Hsub & H).
      apply bind_Ok_inv in H as (reviews' & Hiter & H).
      apply bind_Ok_inv in H as (acc' & Hacc' & H).
      destruct (IH _ _ H) as [Hkeep Hrest].
      destruct (check_reviews_incl _ _ _ _ _ review Hacc') as [Hkeep' Hhere].
      split; [by auto|].
      intros Hin Hcr Hrev. apply elem_of_cons in Hin as [<-|Hin]; [|by auto].
      cbn [subscript] in Hsub. rewrite (getitem_Some _ _ _ Hcr) in Hsub.
      injection Hsub as <-. cbn [py_iter] in Hiter. injection Hiter as <-.
      destruct (Hhere Hrev) as (found & Hfound & Hout).
      exists found. split; [done|]. intros c Hc. by auto.
    + destruct (IH _ _ H) as [Hkeep Hrest]. split; [done|].
      intros Hin Hcr Hrev. apply elem_of_cons in Hin as [<-|Hin]; [|by auto].
      cbn [py_in] in Hhas. injection Hhas as Hhas.
      apply bool_decide_eq_false in Hhas. destruct Hhas. rewrite Hcr. eauto.
Qed.

(** The filter run on one claim with one review returns what the body
    of the loop returns for that review. *)
Lemma filter_one_review (clock : Z) (cm : gmap string json) (review : json) :
  cm !! "claimReview" = Some (JList [review]) →
  check_for_recent_false_claims fromisoformat clock (JList [JDict cm]) =
    (found ← check_review fromisoformat
               (dt_sub (now_utc clock) (timedelta_days 1)) (JDict cm) review;
     mret (option_list found)).
Proof.
  intros Hcr. unfold check_for_recent_false_claims.
  repeat first [rewrite bind_Ok | progress cbn [py_iter check_claims py_in]].
  rewrite bool_decide_eq_true_2 by (rewrite Hcr; eauto).
  cbn [negb subscript]. rewrite (getitem_Some _ _ _ Hcr).
  repeat first [rewrite bind_Ok | progress cbn [py_iter check_reviews]].
  destruct (check_review _ _ _ _) as [[c|]|e]; reflexivity.
Qed.

End FilterProperties.

Section FilterClaims.

Variable fromisoformat : string → option datetime.

(** C6.  A review whose date parses to an aware timestamp is passed over
    by the window test exactly when its instant is strictly earlier than
    now minus 24 hours, whatever else it carries: 25 hours before now it
    is left out of the result; 23 hours before now, with a false rating,
    it is put in.  Stated for the body of the loop in any claim, for the
    filter run on a claim that carries this one review, and for the review
    anywhere in the input of a run of the filter that returns. *)
Theorem review_window_24h
    (clock : Z) (cm m : gmap string json) (s : string) (w off : Z) :
  cm !! "claimReview" = Some (JList [JDict m]) →
  m !! "reviewDate" = Some (JStr s) →
  s ≠ EmptyString →
  fromisoformat (replace_Z s) = Some {| wall := w; utcoffset := Some off |} →
  let cutoff_time := dt_sub (now_utc clock) (timedelta_days 1) in
  let result := check_for_recent_false_claims fromisoformat clock (JList [JDict cm]) in
  (instant w off < clock - timedelta_hours 24 →
     result = Ok [] ∧
     ∀ claim, check_review fromisoformat cutoff_time claim (JDict m) = Ok None) ∧
  (instant w off = clock - timedelta_hours 25 → result = Ok []) ∧
  (∀ r, m !! "textualRating" = Some (JStr r) →
        is_false_rating (lower r) = true →
        m !! "publisher" = None ∨ (∃ pm, m !! "publisher" = Some (JDict pm)) →
        (result = Ok [] ↔ instant w off < clock - timedelta_hours 24) ∧
        (∀ claim, check_review fromisoformat cutoff_time claim (JDict m) = Ok None ↔
                  instant w off < clock - timedelta_hours 24) ∧
        (instant w off = clock - timedelta_hours 23 → ∃ c, result = Ok [c])) ∧
  (∀ claims cm' reviews out r,
     check_for_recent_false_claims fromisoformat clock (JList claims) = Ok out →
     JDict cm' ∈ claims →
     cm' !! "claimReview" = Some (JList reviews) →
     JDict m ∈ reviews →
     m !! "textualRating" = Some (JStr r) →
     is_false_rating (lower r) = true →
     clock - timedelta_hours 24 ≤ instant w off →
     ∃ c, check_review fromisoformat cutoff_time (JDict cm') (JDict m) = Ok (Some c) ∧
          c ∈ out).
Proof.
  intros Hcr Hd Hs Hp cutoff_time result.
  assert (Hday : timedelta_hours 24 = us_per_day) by reflexivity.
  assert (Hbody : ∀ claim,
    check_review fromisoformat cutoff_time claim (JDict m) =
      if instant w off <? clock - us_per_day then Ok None
      else
        rating ← method_lower (default (JStr EmptyString) (m !! "textualRating"));
        if is_false_rating rating
        then c ← flagged_claim claim (JDict m) {| wall := w; utcoffset := Some off |};
             mret (Some c)
        else mret None).
  { intros claim. rewrite (check_review_dated _ _ _ _ _ _ Hd Hs Hp).
    unfold cutoff_time. rewrite dt_lt_cutoff, bind_Ok. by destruct (_ <? _). }
  assert (Hres : result =
      found ← check_review fromisoformat cutoff_time (JDict cm) (JDict m);
      mret (option_list found)).
  { unfold result. by rewrite (filter_one_review _ _ _ _ Hcr). }
  assert (Hearly : instant w off < clock - us_per_day →
    result = Ok [] ∧
    ∀ claim, check_review fromisoformat cutoff_time claim (JDict m) = Ok None).
  { intros Hlt. apply Z.ltb_lt in Hlt. split.
    - by rewrite Hres, Hbody, Hlt.
    - intros claim. by rewrite Hbody, Hlt. }
  rewrite Hday. split; [done|]. split.
  { intros H25. apply Hearly. rewrite H25.
    unfold timedelta_hours, us_per_day, us_per_second. lia. }
  split; cycle 1.
  { intros claims cm' reviews out r Hout Hin Hcr' Hrev Hr Hfalse Hge.
    unfold check_for_recent_false_claims in Hout. cbn [py_iter] in Hout.
    rewrite bind_Ok in Hout. fold cutoff_time in Hout.
    destruct (check_claims_incl _ _ _ cm' reviews (JDict m) _ _ Hout) as [_ Hincl].
    destruct (Hincl Hin Hcr' Hrev) as (found & Hfound & Hmem).
    rewrite Hbody in Hfound. apply Z.ltb_ge in Hge. rewrite Hge, Hr in Hfound.
    cbn [from_option id method_lower] in Hfound.
    rewrite bind_Ok, Hfalse in Hfound.
    apply bind_Ok_inv in Hfound as (c & Hc & [= <-]).
    exists c. split; [|by apply Hmem].
    rewrite Hbody, Hge, Hr. cbn [from_option id method_lower].
    by rewrite bind_Ok, Hfalse, Hc. }
  intros r Hr Hfalse Hpub.
  destruct (publisher_name m Hpub) as [source Hsource].
  pose proof (flagged_claim_fields cm m {| wall := w; utcoffset := Some off |}
                source Hsource) as Hflag.
  assert (Hlate : ∀ claim, clock - us_per_day ≤ instant w off →
    check_review fromisoformat cutoff_time claim (JDict m) =
      (c ← flagged_claim claim (JDict m) {| wall := w; utcoffset := Some off |};
       mret (Some c))).
  { intros claim Hge. rewrite Hbody. apply Z.ltb_ge in Hge as ->.
    rewrite Hr. cbn [from_option id method_lower]. by rewrite bind_Ok, Hfalse. }
  split; [|split].
  - destruct (Z.lt_ge_cases (instant w off) (clock - us_per_day)) as [Hlt|Hge].
    + split; [done|]. intros _. by apply Hearly.
    + rewrite Hres, (Hlate _ Hge), Hflag. split; [done|lia].
  - intros claim.
    destruct (Z.lt_ge_cases (instant w off) (clock - us_per_day)) as [Hlt|Hge].
    + split; [done|]. intros _. by apply Hearly.
    + rewrite (Hlate _ Hge). split; [|lia].
      destruct (flagged_claim claim _ _); intros [=].
  - intros H23. rewrite Hres, Hlate, Hflag; [by eexists|].
    rewrite H23. unfold timedelta_hours, us_per_day, us_per_second. lia.
Qed.

(** C7.  A review that reaches the rating test is flagged exactly when
    its rating in lower case holds one of the five keywords as a
    substring; "Half True" holds none, "Pants on Fire!" holds one. *)
Theorem flagged_iff_keyword
    (clock : Z) (cm m : gmap string json) (s r : string) (w off : Z) :
  m !! "reviewDate" = Some (JStr s) →
  s ≠ EmptyString →
  fromisoformat (replace_Z s) = Some {| wall := w; utcoffset := Some off |} →
  clock - timedelta_hours 24 ≤ instant w off →
  m !! "textualRating" = Some (JStr r) →
  m !! "publisher" = None ∨ (∃ pm, m !! "publisher" = Some (JDict pm)) →
  let cutoff_time := dt_sub (now_utc clock) (timedelta_days 1) in
  let body := check_review fromisoformat cutoff_time (JDict cm) (JDict m) in
  keywords = ["false"; "pants on fire"; "lie"; "incorrect"; "wrong"] ∧
  ((∃ c, body = Ok (Some c)) ↔
     ∃ term, term ∈ keywords ∧ ∃ pre post, lower r = pre +:+ term +:+ post) ∧
  (body = Ok None ↔
     ¬ ∃ term, term ∈ keywords ∧ ∃ pre post, lower r = pre +:+ term +:+ post) ∧
  (r = "Half True" → body = Ok None) ∧
  (r = "Pants on Fire!" → ∃ c, body = Ok (Some c)) ∧
  (∀ cutoff claim m' c,
     m' !! "textualRating" = Some (JStr "Half True") →
     check_review fromisoformat cutoff claim (JDict m') ≠ Ok (Some c)).
Proof.
  intros Hd Hs Hp Hin Hr Hpub cutoff_time body.
  destruct (publisher_name m Hpub) as [source Hsource].
  pose proof (flagged_claim_fields cm m {| wall := w; utcoffset := Some off |}
                source Hsource) as Hflag.
  assert (Hbody : ∃ c, body = if is_false_rating (lower r) then Ok (Some c) else Ok None).
  { eexists. unfold body. rewrite (check_review_dated _ _ _ _ _ _ Hd Hs Hp).
    unfold cutoff_time. rewrite dt_lt_cutoff, bind_Ok.
    assert ((instant w off <? clock - us_per_day) = false) as ->.
    { apply Z.ltb_ge. by change us_per_day with (timedelta_hours 24). }
    rewrite Hr. cbn [from_option id method_lower]. rewrite bind_Ok.
    destruct (is_false_rating (lower r)); [|done]. by rewrite Hflag. }
  destruct Hbody as [c Hbody].
  rewrite <- is_false_rating_spec.
  split; [done|]. split; [|split; [|split; [|split]]].
  - rewrite Hbody. destruct (is_false_rating (lower r)).
    + split; [done|eauto].
    + split; [|done]. by intros [c' [=]].
  - rewrite Hbody. by destruct (is_false_rating (lower r)).
  - intros ->. by rewrite Hbody.
  - intros ->. rewrite Hbody. eauto.
  - intros cutoff claim m' c' Hhalf Hsome.
    apply check_review_Some_inv in Hsome as (m2 & fields & r2 & [= <-] & Hr2 & Hf & _).
    rewrite Hhalf in Hr2. injection Hr2 as <-. discriminate Hf.
Qed.



(** C10.  A review without a textual rating is never flagged, and every
    dict in the result of the filter carries the rating of a review that
    has one: a rating that holds a keyword, never the fallback
    "Unknown". *)
Theorem unrated_review_never_flagged (clock : Z) (claims : json) (out : list json) :
  check_for_recent_false_claims fromisoformat clock claims = Ok out →
  let cutoff_time := dt_sub (now_utc clock) (timedelta_days 1) in
  (∀ claim m c,
     m !! "textualRating" = None →
     check_review fromisoformat cutoff_time claim (JDict m) ≠ Ok (Some c)) ∧
  (∀ c, c ∈ out →
     ∃ claim (m fields : gmap string json) (r : string),
       check_review fromisoformat cutoff_time claim (JDict m) = Ok (Some c) ∧
       m !! "textualRating" = Some (JStr r) ∧
       is_false_rating (lower r) = true ∧
       c = JDict fields ∧
       fields !! "rating" = Some (JStr r) ∧
       r ≠ "Unknown").
Proof.
  intros Hout cutoff_time. split.
  - intros claim m c Hnone. by apply check_review_unrated.
  - intros c Hc. unfold check_for_recent_false_claims in Hout.
    apply bind_Ok_inv in Hout as (items & _ & Hout).
    destruct (check_claims_elem _ _ _ _ _ _ Hout Hc)
      as [Hnil|(claim & review & _ & Hreview)].
    { by apply elem_of_nil in Hnil. }
    destruct (check_review_Some_inv _ _ _ _ _ Hreview)
      as (m & fields & r & -> & Hr & Hfalse & -> & Hrating).
    exists claim, m, fields, r. repeat split; try done.
    intros ->. discriminate Hfalse.
Qed.

End FilterClaims.


(** On the two reviews, of which the filter keeps one. *)
Lemma unrated_review_never_flagged_witness :
  let cutoff_time := dt_sub (now_utc noon) (timedelta_days 1) in
  (∀ claim m c,
     m !! "textualRating" = None →
     check_review fromisoformat_plain cutoff_time claim (JDict m) ≠ Ok (Some c)) ∧
  (∀ c, c ∈ one_flagged →
     ∃ claim (m fields : gmap string json) (r : string),
       check_review fromisoformat_plain cutoff_time claim (JDict m) = Ok (Some c) ∧
       m !! "textualRating" = Some (JStr r) ∧
       is_false_rating (lower r) = true ∧
       c = JDict fields ∧
       fields !! "rating" = Some (JStr r) ∧
       r ≠ "Unknown").
Proof.
  apply (unrated_review_never_flagged fromisoformat_plain noon two_reviews one_flagged).
  vm_compute. reflexivity.
Defined.

(** On a review rated "Pants on Fire!" 23 hours before noon. *)
Lemma flagged_iff_keyword_witness :
  let m := review_rated "2024-03-01T13:00:00Z" "Pants on Fire!" in
  let cutoff_time := dt_sub (now_utc noon) (timedelta_days 1) in
  let body :=
    check_review fromisoformat_plain cutoff_time (JDict (claim_with [])) (JDict m) in
  keywords = ["false"; "pants on fire"; "lie"; "incorrect"; "wrong"] ∧
  ((∃ c, body = Ok (Some c)) ↔
     ∃ term, term ∈ keywords ∧
       ∃ pre post, lower "Pants on Fire!" = pre +:+ term +:+ post) ∧
  (body = Ok None ↔
     ¬ ∃ term, term ∈ keywords ∧
       ∃ pre post, lower "Pants on Fire!" = pre +:+ term +:+ post) ∧
  ("Pants on Fire!" = "Half True" → body = Ok None) ∧
  ("Pants on Fire!" = "Pants on Fire!" → ∃ c, body = Ok (Some c)) ∧
  (∀ cutoff claim m' c,
     m' !! "textualRating" = Some (JStr "Half True") →
     check_review fromisoformat_plain cutoff claim (JDict m') ≠ Ok (Some c)).
Proof.
  apply (flagged_iff_keyword fromisoformat_plain noon (claim_with [])
           (review_rated "2024-03-01T13:00:00Z" "Pants on Fire!")
           "2024-03-01T13:00:00Z" "Pants on Fire!" (clock_at 2024 3 1 13 0 0) 0).
  - reflexivity.
  - discriminate.
  - vm_compute. reflexivity.
  - vm_compute. discriminate.
  - reflexivity.
  - right. eexists. reflexivity.
Defined.

(** On a review rated "False" 23 hours before noon. *)
Lemma review_window_24h_witness :
  let m := review_rated "2024-03-01T13:00:00Z" "False" in
  let stamp := instant (clock_at 2024 3 1 13 0 0) 0 in
  let cutoff_time := dt_sub (now_utc noon) (timedelta_days 1) in
  let result :=
    check_for_recent_false_claims fromisoformat_plain noon
      (JList [JDict (claim_with [JDict m])]) in
  (stamp < noon - timedelta_hours 24 →
     result = Ok [] ∧
     ∀ claim, check_review fromisoformat_plain cutoff_time claim (JDict m) = Ok None) ∧
  (stamp = noon - timedelta_hours 25 → result = Ok []) ∧
  (∀ r, m !! "textualRating" = Some (JStr r) →
        is_false_rating (lower r) = true →
        m !! "publisher" = None ∨ (∃ pm, m !! "publisher" = Some (JDict pm)) →
        (result = Ok [] ↔ stamp < noon - timedelta_hours 24) ∧
        (∀ claim, check_review fromisoformat_plain cutoff_time claim (JDict m) = Ok None ↔
                  stamp < noon - timedelta_hours 24) ∧
        (stamp = noon - timedelta_hours 23 → ∃ c, result = Ok [c])) ∧
  (∀ claims cm' reviews out r,
     check_for_recent_false_claims fromisoformat_plain noon (JList claims) = Ok out →
     JDict cm' ∈ claims →
     cm' !! "claimReview" = Some (JList reviews) →
     JDict m ∈ reviews →
     m !! "textualRating" = Some (JStr r) →
     is_false_rating (lower r) = true →
     noon - timedelta_hours 24 ≤ stamp →
     ∃ c, check_review fromisoformat_plain cutoff_time (JDict cm') (JDict m) = Ok (Some c) ∧
          c ∈ out).
Proof.
  apply (review_window_24h fromisoformat_plain noon
           (claim_with [JDict (review_rated "2024-03-01T13:00:00Z" "False")])
           (review_rated "2024-03-01T13:00:00Z" "False")
           "2024-03-01T13:00:00Z" (clock_at 2024 3 1 13 0 0) 0).
  - reflexivity.
  - reflexivity.
  - discriminate.
  - vm_compute. reflexivity.
Defined.

(** ** State Store and Orchestrator *)

Lemma io_bind_Ok {A B} (f : A → io B) (c : io A) (w w1 : world) (a : A) :
  c w = (Ok a, w1) → (c ≫= f) w = f a w1.
Proof. intros H. unfold mbind, io_bind. by rewrite H. Qed.

Lemma io_bind_Raise {A B} (f : A → io B) (c : io A) (w w1 : world) (e : exn) :
  c w = (Raise e, w1) → (c ≫= f) w = (Raise e, w1).
Proof. intros H. unfold mbind, io_bind. by rewrite H. Qed.

(** A write that succeeds stores the value and logs it; nothing else
    changes. *)
Lemma save_data_ok (data : json) (w : world) :
  disk_ok w = true →
  ∃ w', save_data data w = (Ok (), w') ∧
        data_json w' = Content data ∧
        writes w' = writes w ++ [data] ∧
        disk_ok w' = true ∧
        environ_key w' = environ_key w ∧
        service w' = service w ∧
        clock w' = clock w.
Proof.
  intros Hdisk. unfold save_data. rewrite Hdisk. eexists. split; [done|].
  by cbn.
Qed.

(** What a successful load returns and leaves behind: a present file is
    returned untouched; a missing file is created with the default record,
    which is one write. *)
Lemma load_data_ok (w w1 : world) (data : json) :
  load_data w = (Ok data, w1) →
  writes w1 = writes w ++ match data_json w with Absent => [default_data] | _ => [] end ∧
  disk_ok w1 = disk_ok w ∧
  environ_key w1 = environ_key w ∧
  service w1 = service w ∧
  clock w1 = clock w.
Proof.
  unfold load_data. destruct (data_json w) as [| |v] eqn:Hfile.
  - unfold mbind, io_bind, save_data.
    destruct (disk_ok w) eqn:Hdisk; [|by destruct (open_ok w)].
    intros [= <- <-]. by cbn.
  - discriminate.
  - intros [= <- <-]. by rewrite app_nil_r.
Qed.

(** The step shared by the two short paths: add one day and write. *)
Lemma increment_and_save (m : gmap string json) (d : Z) (w : world) :
  m !! "days_since_lie" = Some (JInt d) →
  disk_ok w = true →
  ∃ w', (lift (increment_days (JDict m)) ≫= save_data) w = (Ok (), w') ∧
        data_json w' = Content (JDict (<["days_since_lie" := JInt (d + 1)]> m)) ∧
        writes w' = writes w ++ [JDict (<["days_since_lie" := JInt (d + 1)]> m)].
Proof.
  intros Hd Hdisk.
  destruct (save_data_ok (JDict (<["days_since_lie" := JInt (d + 1)]> m)) w Hdisk)
    as (w' & Hsave & Hfile & Hwrites & _).
  exists w'. split; [|done].
  erewrite io_bind_Ok; [exact Hsave|].
  unfold lift, increment_days, iadd_item. by rewrite (getitem_Some _ _ _ Hd).
Qed.

Section MainProperties.

Variable fromisoformat : string → option datetime.

(** C5, amended.  When the load succeeds with a record whose counter is
    an integer and the file can be written, each of the three paths ends
    with success after one write of the final record.  That is the only
    write of the run when the file was there; when the file was missing
    the load has written the default record before, so the run writes
    twice. *)
Theorem main_writes_final_record
    (w w1 : world) (m : gmap string json) (d : Z) :
  load_data w = (Ok (JDict m), w1) →
  m !! "days_since_lie" = Some (JInt d) →
  disk_ok w = true →
  (environ_key w = None ∨ environ_key w = Some EmptyString) ∨
  (∃ key claims,
     environ_key w = Some key ∧ key ≠ EmptyString ∧
     claims_of (service w) = Ok claims ∧ truthy claims = false) ∨
  (∃ key claims L m',
     environ_key w = Some key ∧ key ≠ EmptyString ∧
     claims_of (service w) = Ok claims ∧ truthy claims = true ∧
     check_for_recent_false_claims fromisoformat (clock w) claims = Ok L ∧
     update_counter m L = Ok m') →
  ∃ final w',
    main fromisoformat w = (Ok (), w') ∧
    data_json w' = Content final ∧
    writes w' = writes w1 ++ [final] ∧
    (data_json w ≠ Absent → writes w' = writes w ++ [final]) ∧
    (data_json w = Absent → writes w' = writes w ++ [default_data; final]).
Proof.
  intros Hload Hd Hdisk Hpath.
  destruct (load_data_ok _ _ _ Hload) as (Hw1 & Hdisk1 & Henv1 & Hsvc1 & Hclock1).
  rewrite Hdisk in Hdisk1.
  assert (Hcount : ∀ final w',
    writes w' = writes w1 ++ [final] →
    (data_json w ≠ Absent → writes w' = writes w ++ [final]) ∧
    (data_json w = Absent → writes w' = writes w ++ [default_data; final])).
  { intros final w' ->. rewrite Hw1. split.
    - intros Hne. destruct (data_json w); [done| |]; by rewrite app_nil_r.
    - intros ->. by rewrite <- app_assoc. }
  destruct Hpath as [Hkey|[(key & claims & Hkey & Hne & Hclaims & Hfalsy)
                          |(key & claims & L & m' & Hkey & Hne & Hclaims & Htruthy & HL & Hm')]].
  - destruct (increment_and_save m d w1 Hd Hdisk1) as (w' & Hrun & Hfile & Hwrites).
    exists (JDict (<["days_since_lie" := JInt (d + 1)]> m)), w'.
    split; [|split; [done|split; [done|by apply Hcount]]].
    unfold main. destruct Hkey as [->| ->]; by rewrite (io_bind_Ok _ _ _ _ _ Hload).
  - set (w2 := {| data_json := data_json w1; disk_ok := disk_ok w1;
                  open_ok := open_ok w1;
                  environ_key := environ_key w1; service := service w1;
                  clock := clock w1; writes := writes w1;
                  requests_sent := S (requests_sent w1) |}).
    destruct (increment_and_save m d w2 Hd Hdisk1) as (w' & Hrun & Hfile & Hwrites).
    exists (JDict (<["days_since_lie" := JInt (d + 1)]> m)), w'.
    split; [|split; [done|split; [done|by apply Hcount]]].
    unfold main. rewrite Hkey. destruct key as [|c key]; [done|].
    rewrite (io_bind_Ok _ _ _ _ _ Hload).
    rewrite <- Hsvc1 in Hclaims.
    erewrite io_bind_Ok; [|unfold fetch_fact_checks; by rewrite Hclaims].
    rewrite Hfalsy. exact Hrun.
  - set (w2 := {| data_json := data_json w1; disk_ok := disk_ok w1;
                  open_ok := open_ok w1;
                  environ_key := environ_key w1; service := service w1;
                  clock := clock w1; writes := writes w1;
                  requests_sent := S (requests_sent w1) |}).
    destruct (save_data_ok (JDict m') w2 Hdisk1) as (w' & Hsave & Hfile & Hwrites & _).
    exists (JDict m'), w'.
    split; [|split; [done|split; [done|by apply Hcount]]].
    unfold main. rewrite Hkey. destruct key as [|c key]; [done|].
    rewrite (io_bind_Ok _ _ _ _ _ Hload).
    rewrite <- Hsvc1 in Hclaims. rewrite <- Hclock1 in HL.
    erewrite io_bind_Ok; [|unfold fetch_fact_checks; by rewrite Hclaims].
    rewrite Htruthy. cbn [negb].
    erewrite io_bind_Ok; [|unfold lift; cbn [clock]; by rewrite HL].
    erewrite io_bind_Ok; [exact Hsave|].
    unfold lift, update_loaded. by rewrite Hm'.
Qed.

(** C8.  A state file that is present but is no JSON makes [load_data]
    raise; [main] stops there, and the world, with its file and its log of
    writes, is left as it was. *)
Theorem malformed_state_aborts (w : world) :
  data_json w = Malformed →
  load_data w = (Raise JSONDecodeError, w) ∧
  main fromisoformat w = (Raise JSONDecodeError, w) ∧
  writes (main fromisoformat w).2 = writes w ∧
  data_json (main fromisoformat w).2 = Malformed.
Proof.
  intros Hfile.
  assert (Hload : load_data w = (Raise JSONDecodeError, w)).
  { unfold load_data. by rewrite Hfile. }
  assert (Hmain : main fromisoformat w = (Raise JSONDecodeError, w)).
  { unfold main. destruct (environ_key w) as [[|c key]|];
      by rewrite (io_bind_Raise _ _ _ _ _ Hload). }
  by rewrite Hmain.
Qed.

End MainProperties.

(** C5, as stated, fails: when the state file is missing, a run writes it
    twice, first the default record and then the final one. *)
Lemma main_writes_twice_when_absent :
  ∃ w' first final,
    main fromisoformat_plain (world_with Absent) = (Ok (), w') ∧
    writes w' = [first; final] ∧
    length (writes w') ≠ 1%nat.
Proof. eexists _, _, _. split; [vm_compute; reflexivity|]. by cbn. Qed.

(** Without a credential, on the record of the scenario. *)
Lemma main_writes_final_record_witness :
  ∃ final w',
    main fromisoformat_plain (world_with (Content (JDict five_days))) = (Ok (), w') ∧
    data_json w' = Content final ∧
    writes w' = writes (world_with (Content (JDict five_days))) ++ [final] ∧
    (data_json (world_with (Content (JDict five_days))) ≠ Absent →
       writes w' = writes (world_with (Content (JDict five_days))) ++ [final]) ∧
    (data_json (world_with (Content (JDict five_days))) = Absent →
       writes w' = writes (world_with (Content (JDict five_days)))
                     ++ [default_data; final]).
Proof.
  apply (main_writes_final_record fromisoformat_plain
           (world_with (Content (JDict five_days)))
           (world_with (Content (JDict five_days))) five_days 5).
  - reflexivity.
  - reflexivity.
  - reflexivity.
  - left. left. reflexivity.
Defined.

(** On a world whose state file is no JSON. *)
Lemma malformed_state_aborts_witness :
  load_data (world_with Malformed) = (Raise JSONDecodeError, world_with Malformed) ∧
  main fromisoformat_plain (world_with Malformed)
    = (Raise JSONDecodeError, world_with Malformed) ∧
  writes (main fromisoformat_plain (world_with Malformed)).2
    = writes (world_with Malformed) ∧
  data_json (main fromisoformat_plain (world_with Malformed)).2 = Malformed.
Proof. apply (malformed_state_aborts fromisoformat_plain (world_with Malformed)). reflexivity. Defined.


(** ** Runs *)

(** Of two reviews of one claim, one rated "False" 23 hours ago and one
    without a rating, the filter keeps the first. *)
Example filter_two_reviews :
  check_for_recent_false_claims fromisoformat_plain noon two_reviews = Ok one_flagged.
Proof. vm_compute. reflexivity. Qed.

(** A date without an offset parses to a naive datetime, and the
    comparison with the cutoff raises: the filter does not return. *)
Example filter_naive_date_raises :
  check_for_recent_false_claims fromisoformat_plain noon
    (JList [JDict (claim_with [JDict (review_rated "2024-03-01" "False")])])
  = Raise TypeError.
Proof. vm_compute. reflexivity. Qed.

(** The normal path on the record of the scenario: one request, one write,
    the counter back at 0. *)
Example main_normal_path :
  ∃ w', main fromisoformat_plain (world_served (Content (JDict five_days))) = (Ok (), w') ∧
        requests_sent w' = 1%nat ∧
        writes w' =
          [JDict {[ "days_since_lie" := JInt 0;
                    "term_1" := JInt 30573;
                    "term_2" := JInt 11;
                    "recent_lies" := JList one_flagged ]}].
Proof. eexists. split; [vm_compute; reflexivity|]. split; vm_compute; reflexivity. Qed.

(** Without a credential the service is not called. *)
Example main_no_credential :
  ∃ w', main fromisoformat_plain (world_with (Content (JDict five_days))) = (Ok (), w') ∧
        requests_sent w' = 0%nat ∧
        writes w' = [JDict (<["days_since_lie" := JInt 6]> five_days)].
Proof. eexists. split; [vm_compute; reflexivity|]. split; vm_compute; reflexivity. Qed.

(* ================================================================== *)
(** * Further properties of the code *)

(** ** Counter Updater *)

Lemma take_app_take {A} (n : nat) (l k : list A) :
  take n (l ++ take n k) = take n (l ++ k).
Proof. rewrite !take_app, take_take. f_equal. f_equal. lia. Qed.

(** X1.  With flagged claims, [update_counter] touches three keys only:
    ["term_1"] and every key other than ["days_since_lie"], ["term_2"] and
    ["recent_lies"] read as before. *)
Theorem update_counter_nonempty_frame
    (state : gmap string json) (L r : list json) (t : Z) :
  L ≠ [] →
  state !! "term_2" = Some (JInt t) →
  state !! "recent_lies" = Some (JList r) →
  ∃ state', update_counter state L = Ok state' ∧
            state' !! "term_1" = state !! "term_1" ∧
            ∀ k, k ≠ "days_since_lie" → k ≠ "term_2" → k ≠ "recent_lies" →
                 state' !! k = state !! k.
Proof.
  intros HL Ht Hr. eexists. split; [by apply (update_counter_nonempty _ _ r t)|].
  split; [by simplify_map_eq|].
  intros k H1 H2 H3. by rewrite !lookup_insert_ne.
Qed.

(** On the record of the scenario and one flagged claim. *)
Lemma update_counter_nonempty_frame_witness :
  ∃ state', update_counter five_days [lie 1] = Ok state' ∧
            state' !! "term_1" = five_days !! "term_1" ∧
            ∀ k, k ≠ "days_since_lie" → k ≠ "term_2" → k ≠ "recent_lies" →
                 state' !! k = five_days !! k.
Proof.
  apply (update_counter_nonempty_frame five_days [lie 1] [] 10);
    [discriminate | reflexivity | reflexivity].
Defined.

(** Two updates with flagged claims against one update with both lists. *)
Lemma update_counter_append
    (state : gmap string json) (L1 L2 r : list json) (t : Z) :
  L1 ≠ [] →
  L2 ≠ [] →
  state !! "term_2" = Some (JInt t) →
  state !! "recent_lies" = Some (JList r) →
  (update_counter state L1 ≫= λ state1, update_counter state1 L2)
    = update_counter state (L1 ++ L2).
Proof.
  intros H1 H2 Ht Hr.
  assert (H12 : L1 ++ L2 ≠ []) by (destruct L1; [done|discriminate]).
  rewrite (update_counter_nonempty _ _ r t H1 Ht Hr), bind_Ok.
  rewrite (update_counter_nonempty _ L2 (take 10 (rev L1 ++ r))
             (t + Z.of_nat (length L1)) H2) by by simplify_map_eq.
  rewrite (update_counter_nonempty _ _ r t H12 Ht Hr).
  f_equal. apply map_eq. intros k.
  destruct (decide (k = "recent_lies")) as [->|].
  { rewrite !lookup_insert_eq. do 2 f_equal.
    by rewrite take_app_take, rev_app_distr, <- app_assoc. }
  rewrite !(lookup_insert_ne _ "recent_lies") by done.
  destruct (decide (k = "term_2")) as [->|].
  { rewrite !lookup_insert_eq. do 2 f_equal. rewrite length_app. lia. }
  rewrite !(lookup_insert_ne _ "term_2") by done.
  destruct (decide (k = "days_since_lie")) as [->|].
  { by rewrite !lookup_insert_eq. }
  rewrite !(lookup_insert_ne _ "days_since_lie") by done.
  by rewrite !lookup_insert_ne.
Qed.

(** X2.  Two updates with flagged claims, one after the other, leave the
    record that one update with both lists leaves. *)
Theorem update_counter_twice
    (state : gmap string json) (L1 L2 r : list json) (t : Z) :
  L1 ≠ [] →
  L2 ≠ [] →
  state !! "term_2" = Some (JInt t) →
  state !! "recent_lies" = Some (JList r) →
  (update_counter state L1 ≫= λ state1, update_counter state1 L2)
    = update_counter state (L1 ++ L2) ∧
  ∃ state2, update_counter state (L1 ++ L2) = Ok state2.
Proof.
  intros H1 H2 Ht Hr. split; [by apply (update_counter_append _ _ _ r t)|].
  eexists. apply (update_counter_nonempty _ _ r t); [|done|done].
  destruct L1; [done|discriminate].
Qed.

(** On the record of the scenario, one claim and then two. *)
Lemma update_counter_twice_witness :
  (update_counter five_days [lie 1] ≫= λ state1, update_counter state1 [lie 2; lie 3])
    = update_counter five_days ([lie 1] ++ [lie 2; lie 3]) ∧
  ∃ state2, update_counter five_days ([lie 1] ++ [lie 2; lie 3]) = Ok state2.
Proof.
  apply (update_counter_twice five_days [lie 1] [lie 2; lie 3] [] 10);
    [discriminate | discriminate | reflexivity | reflexivity].
Defined.

(** X3.  With flagged claims the history afterwards holds ten entries, or
    all the new and old ones when these are fewer than ten. *)
Theorem update_counter_history_length
    (state : gmap string json) (L r : list json) (t : Z) :
  L ≠ [] →
  state !! "term_2" = Some (JInt t) →
  state !! "recent_lies" = Some (JList r) →
  ∃ state' h, update_counter state L = Ok state' ∧
              state' !! "recent_lies" = Some (JList h) ∧
              length h = (10 `min` (length L + length r))%nat ∧
              ((10 ≤ length L)%nat → h = take 10 (rev L)).
Proof.
  intros HL Ht Hr. eexists _, _. split; [by apply (update_counter_nonempty _ _ r t)|].
  split; [by simplify_map_eq|]. split.
  - by rewrite length_take, length_app, length_rev.
  - intros Hlen. apply take_app_le. by rewrite length_rev.
Qed.

(** On a history of eleven entries and two flagged claims. *)
Lemma update_counter_history_length_witness :
  ∃ state' h, update_counter eleven_lies [lie 12; lie 13] = Ok state' ∧
              state' !! "recent_lies" = Some (JList h) ∧
              length h = (10 `min` (length [lie 12; lie 13] + length eleven_entries))%nat ∧
              ((10 ≤ length [lie 12; lie 13])%nat → h = take 10 (rev [lie 12; lie 13])).
Proof.
  apply (update_counter_history_length eleven_lies [lie 12; lie 13] eleven_entries 11);
    [discriminate | reflexivity | reflexivity].
Defined.

(** X4.  A key the update reads and does not find is a [KeyError]: the
    counter when nothing is flagged, the total or the history when
    something is. *)
Theorem update_counter_missing_key (state : gmap string json) (L : list json) :
  (L = [] ∧ state !! "days_since_lie" = None) ∨
  (L ≠ [] ∧ state !! "term_2" = None) ∨
  (L ≠ [] ∧ (∃ t, state !! "term_2" = Some (JInt t)) ∧ state !! "recent_lies" = None) →
  update_counter state L = Raise KeyError.
Proof.
  intros [[-> Hd]|[[HL Ht]|(HL & [t Ht] & Hr)]].
  - unfold update_counter, iadd_item, getitem. by rewrite Hd.
  - destruct L as [|c L]; [done|].
    unfold update_counter, iadd_item, getitem.
    rewrite lookup_insert_ne by done. by rewrite Ht.
  - destruct L as [|c L]; [done|].
    unfold update_counter, iadd_item.
    rewrite (getitem_Some _ "term_2" (JInt t)) by by simplify_map_eq.
    run_ok. cbn [insert_claims]. unfold getitem.
    rewrite !lookup_insert_ne by done. by rewrite Hr.
Qed.

(** On a record without ["term_2"]. *)
Lemma update_counter_missing_key_witness :
  update_counter no_total [lie 1] = Raise KeyError.
Proof.
  apply (update_counter_missing_key no_total [lie 1]).
  right. left. split; [discriminate|reflexivity].
Defined.

(** X5.  With flagged claims, a total that is null, a string, a list or a
    dict fails at the addition with a [TypeError], and a history that is
    no list fails at the first insertion with an [AttributeError]. *)
Theorem update_counter_ill_typed (state : gmap string json) (L : list json) (v : json) :
  L ≠ [] →
  (state !! "term_2" = Some v →
   v = JNull ∨ (∃ s, v = JStr s) ∨ (∃ l, v = JList l) ∨ (∃ m, v = JDict m) →
   update_counter state L = Raise TypeError) ∧
  ((∃ t, state !! "term_2" = Some (JInt t)) →
   state !! "recent_lies" = Some v → (∀ l, v ≠ JList l) →
   update_counter state L = Raise AttributeError).
Proof.
  intros HL. destruct L as [|c L]; [done|]. split.
  - intros Ht Hkind. unfold update_counter, iadd_item.
    rewrite (getitem_Some _ "term_2" v) by by simplify_map_eq.
    rewrite bind_Ok.
    by destruct Hkind as [->|[[s ->]|[[l ->]|[m ->]]]].
  - intros [t Ht] Hr Hl. unfold update_counter, iadd_item.
    rewrite (getitem_Some _ "term_2" (JInt t)) by by simplify_map_eq.
    run_ok. cbn [insert_claims].
    rewrite (getitem_Some _ "recent_lies" v) by by simplify_map_eq.
    rewrite bind_Ok.
    destruct v as [| | | |l|]; try done. by destruct (Hl l).
Qed.

(** On a record whose history is a string. *)
Lemma update_counter_ill_typed_witness :
  update_counter history_as_text [lie 1] = Raise AttributeError.
Proof.
  apply (proj2 (update_counter_ill_typed history_as_text [lie 1] (JStr "none")
                  ltac:(discriminate))).
  - exists 10. reflexivity.
  - reflexivity.
  - discriminate.
Defined.

(** X6.  The counters keep their sense: after any update of a record with
    integer counters the days are 0 or one more than before, so never
    negative when they were not, and the total has grown by the number of
    flagged claims, so it never decreases. *)
Theorem update_counter_counters
    (state : gmap string json) (L r : list json) (d t : Z) :
  state !! "days_since_lie" = Some (JInt d) →
  state !! "term_2" = Some (JInt t) →
  state !! "recent_lies" = Some (JList r) →
  ∃ state' d' t',
    update_counter state L = Ok state' ∧
    state' !! "days_since_lie" = Some (JInt d') ∧
    state' !! "term_2" = Some (JInt t') ∧
    (d' = 0 ∨ d' = d + 1) ∧
    (0 ≤ d → 0 ≤ d') ∧
    t' = t + Z.of_nat (length L) ∧
    t ≤ t'.
Proof.
  intros Hd Ht Hr. destruct L as [|c L].
  - exists (<["days_since_lie" := JInt (d + 1)]> state), (d + 1), t.
    split; [by apply update_counter_empty|].
    split; [by simplify_map_eq|]. split; [by simplify_map_eq|].
    cbn [length]. lia.
  - eexists _, 0, (t + Z.of_nat (length (c :: L))).
    split; [by apply (update_counter_nonempty _ _ r t)|].
    split; [by simplify_map_eq|]. split; [by simplify_map_eq|]. lia.
Qed.

(** On the record of the scenario and two flagged claims. *)
Lemma update_counter_counters_witness :
  ∃ state' d' t',
    update_counter five_days [lie 1; lie 2] = Ok state' ∧
    state' !! "days_since_lie" = Some (JInt d') ∧
    state' !! "term_2" = Some (JInt t') ∧
    (d' = 0 ∨ d' = 5 + 1) ∧
    (0 ≤ 5 → 0 ≤ d') ∧
    t' = 10 + Z.of_nat (length [lie 1; lie 2]) ∧
    10 ≤ t'.
Proof.
  apply (update_counter_counters five_days [lie 1; lie 2] [] 5 10);
    reflexivity.
Defined.

(** ** State Store *)

(** X8.  When the state file is missing, [load_data] creates it with the
    default record and returns that record; a second load reads it back
    and writes nothing.  When the write does not go through, the load
    raises an [IOError]: nothing is created if the file cannot be opened,
    and a file that is no JSON is left behind if the write fails after the
    open. *)
Theorem load_data_creates_default (w : world) :
  data_json w = Absent →
  (disk_ok w = true →
   ∃ w1, load_data w = (Ok default_data, w1) ∧
         data_json w1 = Content default_data ∧
         writes w1 = writes w ++ [default_data] ∧
         load_data w1 = (Ok default_data, w1)) ∧
  (disk_ok w = false →
   ∃ w1, load_data w = (Raise IOError, w1) ∧
         writes w1 = writes w ∧
         (open_ok w = false → w1 = w) ∧
         (open_ok w = true → data_json w1 = Malformed)).
Proof.
  intros Hfile. unfold load_data at 1 3. rewrite Hfile.
  unfold mbind, io_bind, save_data. split; intros ->.
  - eexists. split; [done|]. split; [done|]. split; [done|]. reflexivity.
  - destruct (open_ok w); eexists; (split; [done|]); by cbn.
Qed.

(** On a world without the state file. *)
Lemma load_data_creates_default_witness :
  (disk_ok (world_with Absent) = true →
   ∃ w1, load_data (world_with Absent) = (Ok default_data, w1) ∧
         data_json w1 = Content default_data ∧
         writes w1 = writes (world_with Absent) ++ [default_data] ∧
         load_data w1 = (Ok default_data, w1)) ∧
  (disk_ok (world_with Absent) = false →
   ∃ w1, load_data (world_with Absent) = (Raise IOError, w1) ∧
         writes w1 = writes (world_with Absent) ∧
         (open_ok (world_with Absent) = false → w1 = world_with Absent) ∧
         (open_ok (world_with Absent) = true → data_json w1 = Malformed)).
Proof. apply (load_data_creates_default (world_with Absent)). reflexivity. Defined.

(** ** Orchestrator *)

(** Unfold a run of [main] into the case analysis of its steps. *)
Ltac unfold_main :=
  unfold main, load_data, fetch_fact_checks, save_data, lift,
         mbind, io_bind, mret, io_ret.

Section MainFurther.

Variable fromisoformat : string → option datetime.


(** X10.  When the write of the state file does not go through, no run
    ends with success: it raises, the log of writes stays as it was, and
    if the file cannot even be opened its content stays as it was. *)
Theorem main_read_only_disk (w : world) :
  disk_ok w = false →
  ∃ e w', main fromisoformat w = (Raise e, w') ∧
          writes w' = writes w ∧
          (open_ok w = false → data_json w' = data_json w).
Proof.
  intros Hdisk. unfold_main.
  repeat (case_match; simplify_eq/=; try done);
    eexists _, _; (split; [reflexivity|]); cbn; (split; [done|]);
    intros; congruence.
Qed.

(** X11.  A run calls the service at most once; without a credential it
    does not call it at all, and with one it calls it exactly once as soon
    as the state has been loaded. *)
Theorem main_requests (w : world) (data : json) (w1 : world) :
  load_data w = (Ok data, w1) →
  let w' := (main fromisoformat w).2 in
  (requests_sent w' ≤ S (requests_sent w))%nat ∧
  (environ_key w = None ∨ environ_key w = Some EmptyString →
   requests_sent w' = requests_sent w) ∧
  (∀ key, environ_key w = Some key → key ≠ EmptyString →
          requests_sent w' = S (requests_sent w)).
Proof.
  intros Hload w'. subst w'. revert Hload. unfold_main.
  repeat (case_match; simplify_eq/=; try done); intros _;
    (split; [lia|split; [by intros [|]|by intros ? [= <-]]]).
Qed.

(** X12.  A request that fails counts as an answer without claims: the run
    ends the same way, with the same file and the same writes, as for any
    answer whose claims are empty or missing. *)
Theorem main_failed_request_as_no_claims
    (o : http_outcome) (claims : json) (w : world) :
  claims_of o = Ok claims →
  truthy claims = false →
  let failed := main fromisoformat (with_service RequestFailed w) in
  let empty := main fromisoformat (with_service o w) in
  failed.1 = empty.1 ∧
  data_json failed.2 = data_json empty.2 ∧
  writes failed.2 = writes empty.2 ∧
  requests_sent failed.2 = requests_sent empty.2.
Proof.
  intros Hclaims Hfalsy failed empty. subst failed empty.
  unfold_main. cbn [environ_key data_json disk_ok with_service].
  destruct (environ_key w) as [[|c key]|], (data_json w), (disk_ok w);
    cbn; rewrite ?Hclaims, ?Hfalsy; cbn; try done;
    repeat (case_match; simplify_eq/=; try done).
Qed.

(** X13.  Without a credential the run adds one day to the record it
    loaded, writes that record once and sends no request, whatever the
    service and the clock are. *)
Theorem main_without_credential (w : world) (m : gmap string json) (d : Z) :
  environ_key w = None ∨ environ_key w = Some EmptyString →
  data_json w = Content (JDict m) →
  m !! "days_since_lie" = Some (JInt d) →
  disk_ok w = true →
  ∃ w', main fromisoformat w = (Ok (), w') ∧
        data_json w' = Content (JDict (<["days_since_lie" := JInt (d + 1)]> m)) ∧
        writes w' = writes w ++ [JDict (<["days_since_lie" := JInt (d + 1)]> m)] ∧
        requests_sent w' = requests_sent w.
Proof.
  intros Hkey Hfile Hd Hdisk. unfold_main.
  unfold increment_days, iadd_item. rewrite Hfile.
  rewrite (getitem_Some _ _ _ Hd). cbn. rewrite Hdisk.
  destruct Hkey as [->| ->]; eauto.
Qed.

(** X14.  With a credential and claims from the service, the run writes,
    once, the record that [update_counter] returns for what the filter
    returns, after one request. *)
Theorem main_normal_record
    (w : world) (key : string) (claims : json) (m m' : gmap string json)
    (L : list json) :
  environ_key w = Some key → key ≠ EmptyString →
  data_json w = Content (JDict m) →
  disk_ok w = true →
  claims_of (service w) = Ok claims →
  truthy claims = true →
  check_for_recent_false_claims fromisoformat (clock w) claims = Ok L →
  update_counter m L = Ok m' →
  ∃ w', main fromisoformat w = (Ok (), w') ∧
        data_json w' = Content (JDict m') ∧
        writes w' = writes w ++ [JDict m'] ∧
        requests_sent w' = S (requests_sent w).
Proof.
  intros Hkey Hne Hfile Hdisk Hclaims Htruthy HL Hm'. unfold_main.
  rewrite Hkey, Hfile. destruct key as [|c key]; [done|].
  rewrite Hclaims, Htruthy. cbn. rewrite HL. unfold update_loaded.
  rewrite Hm'. cbn. rewrite Hdisk. eauto.
Qed.

(** X15.  A state file that holds JSON other than an object makes every
    run raise; nothing is written. *)
Theorem main_state_not_object (w : world) (v : json) :
  data_json w = Content v →
  (∀ m, v ≠ JDict m) →
  ∃ e w', main fromisoformat w = (Raise e, w') ∧
          data_json w' = Content v ∧
          writes w' = writes w.
Proof.
  intros Hfile Hv. unfold_main. rewrite Hfile.
  assert (Hinc : increment_days v = Raise TypeError).
  { destruct v; try done. by destruct (Hv m). }
  assert (Hupd : ∀ L, update_loaded v L = Raise TypeError).
  { intros L. destruct v; try done. by destruct (Hv m). }
  repeat (case_match; simplify_eq/=; try done); eauto;
    try (rewrite Hinc in *; simplify_eq);
    try (rewrite Hupd in *; simplify_eq).
Qed.

(** X16.  After a run that ends with success the state file holds the
    value written last, and [load_data] reads it back without writing. *)
Theorem main_success_loadable (w w' : world) :
  main fromisoformat w = (Ok (), w') →
  ∃ final, data_json w' = Content final ∧
           last (writes w') = Some final ∧
           load_data w' = (Ok final, w').
Proof.
  intros Hmain.
  assert (∃ final, data_json w' = Content final ∧ last (writes w') = Some final)
    as (final & Hfile & Hlast).
  { revert Hmain. unfold_main.
    repeat (case_match; simplify_eq/=; try done);
      intros [= <-]; eexists; (split; [done|apply last_snoc]). }
  exists final. split; [done|]. split; [done|].
  unfold load_data. by rewrite Hfile.
Qed.

(** X25.  An answer of the service that is JSON but no object is not
    caught: with a credential and a state file that loads, the run raises
    an [AttributeError] after its one request and writes nothing. *)
Theorem main_body_not_object (w : world) (key : string) (body state : json) :
  environ_key w = Some key → key ≠ EmptyString →
  data_json w = Content state →
  service w = Body body →
  (∀ m, body ≠ JDict m) →
  ∃ w', main fromisoformat w = (Raise AttributeError, w') ∧
        data_json w' = data_json w ∧
        writes w' = writes w ∧
        requests_sent w' = S (requests_sent w).
Proof.
  intros Hkey Hne Hfile Hsvc Hbody. unfold_main.
  rewrite Hkey, Hfile, Hsvc. destruct key as [|c key]; [done|].
  assert (claims_of (Body body) = Raise AttributeError) as ->.
  { destruct body; try done. by destruct (Hbody m). }
  cbn. rewrite Hfile. eauto.
Qed.

End MainFurther.

(** A state file that cannot be opened, under the record of the scenario. *)
Lemma main_read_only_disk_witness :
  ∃ e w', main fromisoformat_plain (read_only (world_with (Content (JDict five_days))))
            = (Raise e, w') ∧
          writes w' = writes (read_only (world_with (Content (JDict five_days)))) ∧
          (open_ok (read_only (world_with (Content (JDict five_days)))) = false →
           data_json w' = data_json (read_only (world_with (Content (JDict five_days))))).
Proof.
  apply (main_read_only_disk fromisoformat_plain
           (read_only (world_with (Content (JDict five_days))))).
  reflexivity.
Defined.

(** A write that fails after the open leaves the file without JSON. *)
Example main_disk_full :
  ∃ w', main fromisoformat_plain (disk_full (world_with (Content (JDict five_days))))
          = (Raise IOError, w') ∧
        data_json w' = Malformed ∧
        writes w' = [].
Proof. eexists. split; [vm_compute; reflexivity|]. by cbn. Qed.


(** With a credential, on the record of the scenario. *)
Lemma main_requests_witness :
  let w := world_served (Content (JDict five_days)) in
  let w' := (main fromisoformat_plain w).2 in
  (requests_sent w' ≤ S (requests_sent w))%nat ∧
  (environ_key w = None ∨ environ_key w = Some EmptyString →
   requests_sent w' = requests_sent w) ∧
  (∀ key, environ_key w = Some key → key ≠ EmptyString →
          requests_sent w' = S (requests_sent w)).
Proof.
  apply (main_requests fromisoformat_plain (world_served (Content (JDict five_days)))
           (JDict five_days) (world_served (Content (JDict five_days)))).
  reflexivity.
Defined.

(** An answer without the key ["claims"], against a failed request. *)
Lemma main_failed_request_as_no_claims_witness :
  let w := world_served (Content (JDict five_days)) in
  let failed := main fromisoformat_plain (with_service RequestFailed w) in
  let empty := main fromisoformat_plain (with_service (Body (JDict ∅)) w) in
  failed.1 = empty.1 ∧
  data_json failed.2 = data_json empty.2 ∧
  writes failed.2 = writes empty.2 ∧
  requests_sent failed.2 = requests_sent empty.2.
Proof.
  apply (main_failed_request_as_no_claims fromisoformat_plain (Body (JDict ∅))
           (JList []) (world_served (Content (JDict five_days))));
    reflexivity.
Defined.

(** Without a credential, on the record of the scenario. *)
Lemma main_without_credential_witness :
  ∃ w', main fromisoformat_plain (world_with (Content (JDict five_days))) = (Ok (), w') ∧
        data_json w' = Content (JDict (<["days_since_lie" := JInt (5 + 1)]> five_days)) ∧
        writes w' = writes (world_with (Content (JDict five_days)))
                      ++ [JDict (<["days_since_lie" := JInt (5 + 1)]> five_days)] ∧
        requests_sent w' = requests_sent (world_with (Content (JDict five_days))).
Proof.
  apply (main_without_credential fromisoformat_plain
           (world_with (Content (JDict five_days))) five_days 5).
  - left. reflexivity.
  - reflexivity.
  - reflexivity.
  - reflexivity.
Defined.

(** With a credential and the two reviews, on the record of the scenario. *)
Lemma main_normal_record_witness :
  ∃ w', main fromisoformat_plain (world_served (Content (JDict five_days))) = (Ok (), w') ∧
        data_json w' = Content (JDict after_flagged) ∧
        writes w' = writes (world_served (Content (JDict five_days)))
                      ++ [JDict after_flagged] ∧
        requests_sent w' = S (requests_sent (world_served (Content (JDict five_days)))).
Proof.
  apply (main_normal_record fromisoformat_plain
           (world_served (Content (JDict five_days))) "secret" two_reviews
           five_days after_flagged one_flagged).
  - reflexivity.
  - discriminate.
  - reflexivity.
  - reflexivity.
  - reflexivity.
  - reflexivity.
  - vm_compute. reflexivity.
  - vm_compute. reflexivity.
Defined.

(** A state file that holds an empty JSON array. *)
Lemma main_state_not_object_witness :
  ∃ e w', main fromisoformat_plain (world_with (Content (JList []))) = (Raise e, w') ∧
          data_json w' = Content (JList []) ∧
          writes w' = writes (world_with (Content (JList []))).
Proof.
  apply (main_state_not_object fromisoformat_plain (world_with (Content (JList [])))).
  - reflexivity.
  - discriminate.
Defined.

(** After the run without a credential on the record of the scenario. *)
Lemma main_success_loadable_witness :
  ∃ final,
    data_json (main fromisoformat_plain (world_with (Content (JDict five_days)))).2
      = Content final ∧
    last (writes (main fromisoformat_plain (world_with (Content (JDict five_days)))).2)
      = Some final ∧
    load_data (main fromisoformat_plain (world_with (Content (JDict five_days)))).2
      = (Ok final, (main fromisoformat_plain (world_with (Content (JDict five_days)))).2).
Proof.
  apply (main_success_loadable fromisoformat_plain
           (world_with (Content (JDict five_days)))).
  vm_compute. reflexivity.
Defined.

(** ** Claim Filter *)

Lemma bind_assoc {A B C} (r : result A) (f : A → result B) (g : B → result C) :
  ((r ≫= f) ≫= g) = (r ≫= λ a, f a ≫= g).
Proof. by destruct r. Qed.

Lemma bind_ext {A B} (r : result A) (f g : A → result B) :
  (∀ a, f a = g a) → (r ≫= f) = (r ≫= g).
Proof. intros H. destruct r; [apply H|done]. Qed.

Lemma bind_mret {A} (r : result A) : (r ≫= mret) = r.
Proof. by destruct r. Qed.

Section FilterFurther.

Variable fromisoformat : string → option datetime.

(** The inner loop only appends: started on [acc] it returns [acc]
    followed by what it returns when started on the empty list. *)
Lemma check_reviews_acc (cutoff_time : datetime) (claim : json) (reviews : list json) :
  ∀ acc,
    check_reviews fromisoformat cutoff_time claim reviews acc =
      (found ← check_reviews fromisoformat cutoff_time claim reviews [];
       mret (acc ++ found)).
Proof.
  induction reviews as [|review rest IH]; intros acc; cbn [check_reviews].
  - by rewrite bind_Ok, app_nil_r.
  - rewrite bind_assoc. apply bind_ext. intros found.
    rewrite IH. rewrite (IH (match found with Some c => [] ++ [c] | None => [] end)).
    rewrite bind_assoc. apply bind_ext. intros l. rewrite bind_Ok.
    destruct found; cbn; by rewrite <- ?app_assoc.
Qed.

Lemma check_reviews_app (cutoff_time : datetime) (claim : json) (r1 r2 : list json) :
  ∀ acc,
    check_reviews fromisoformat cutoff_time claim (r1 ++ r2) acc =
      (acc1 ← check_reviews fromisoformat cutoff_time claim r1 acc;
       check_reviews fromisoformat cutoff_time claim r2 acc1).
Proof.
  induction r1 as [|review rest IH]; intros acc; cbn [check_reviews app].
  - by rewrite bind_Ok.
  - rewrite bind_assoc. apply bind_ext. intros found. apply IH.
Qed.

(** The same for the outer loop. *)
Lemma check_claims_acc (cutoff_time : datetime) (claims : list json) :
  ∀ acc,
    check_claims fromisoformat cutoff_time claims acc =
      (found ← check_claims fromisoformat cutoff_time claims [];
       mret (acc ++ found)).
Proof.
  induction claims as [|claim rest IH]; intros acc; cbn [check_claims].
  - by rewrite bind_Ok, app_nil_r.
  - rewrite bind_assoc. apply bind_ext. intros [|]; cbn [negb].
    + rewrite !bind_assoc. apply bind_ext. intros cr.
      rewrite !bind_assoc. apply bind_ext. intros reviews.
      rewrite check_reviews_acc, !bind_assoc. apply bind_ext. intros l.
      change (mret (acc ++ l)) with (Ok (acc ++ l)). rewrite bind_Ok.
      rewrite (IH (acc ++ l)), (IH l), bind_assoc.
      apply bind_ext. intros l'.
      change (mret (l ++ l')) with (Ok (l ++ l')). by rewrite bind_Ok, app_assoc.
    + apply IH.
Qed.

Lemma check_claims_app (cutoff_time : datetime) (a b : list json) :
  ∀ acc,
    check_claims fromisoformat cutoff_time (a ++ b) acc =
      (acc1 ← check_claims fromisoformat cutoff_time a acc;
       check_claims fromisoformat cutoff_time b acc1).
Proof.
  induction a as [|claim rest IH]; intros acc; cbn [check_claims app].
  - by rewrite bind_Ok.
  - rewrite bind_assoc. apply bind_ext. intros [|]; cbn [negb].
    + rewrite !bind_assoc. apply bind_ext. intros cr.
      rewrite !bind_assoc. apply bind_ext. intros reviews.
      rewrite !bind_assoc. apply bind_ext. intros l. apply IH.
    + apply IH.
Qed.

(** X17.  The filter works claim by claim, in the order received: on two
    lists of claims put together it returns what it returns on the first
    followed by what it returns on the second, and it raises where either
    of them raises. *)
Theorem filter_app (clock : Z) (a b : list json) :
  check_for_recent_false_claims fromisoformat clock (JList (a ++ b)) =
    (found_a ← check_for_recent_false_claims fromisoformat clock (JList a);
     found_b ← check_for_recent_false_claims fromisoformat clock (JList b);
     mret (found_a ++ found_b)).
Proof.
  unfold check_for_recent_false_claims. cbn [py_iter]. rewrite !bind_Ok.
  rewrite check_claims_app. apply bind_ext. intros l.
  apply check_claims_acc.
Qed.

(** The body of the loop reads nothing of the claim but its text. *)
Lemma check_review_text (cutoff_time : datetime) (cm1 cm2 : gmap string json)
    (review : json) :
  cm1 !! "text" = cm2 !! "text" →
  check_review fromisoformat cutoff_time (JDict cm1) review =
  check_review fromisoformat cutoff_time (JDict cm2) review.
Proof.
  intros Htext. unfold check_review, flagged_claim. cbn [method_get].
  unfold dict_get. by rewrite Htext.
Qed.

Lemma check_reviews_text (cutoff_time : datetime) (cm1 cm2 : gmap string json)
    (reviews : list json) :
  cm1 !! "text" = cm2 !! "text" →
  ∀ acc,
    check_reviews fromisoformat cutoff_time (JDict cm1) reviews acc =
    check_reviews fromisoformat cutoff_time (JDict cm2) reviews acc.
Proof.
  intros Htext. induction reviews as [|review rest IH]; intros acc;
    cbn [check_reviews]; [done|].
  rewrite (check_review_text _ _ _ _ Htext). apply bind_ext. intros found. apply IH.
Qed.

(** One round of the outer loop on a claim that is a dict. *)
Lemma check_claims_cons_reviews (cutoff_time : datetime) (cm : gmap string json)
    (reviews rest acc : list json) :
  cm !! "claimReview" = Some (JList reviews) →
  check_claims fromisoformat cutoff_time (JDict cm :: rest) acc =
    (acc1 ← check_reviews fromisoformat cutoff_time (JDict cm) reviews acc;
     check_claims fromisoformat cutoff_time rest acc1).
Proof.
  intros Hcr. cbn [check_claims py_in]. rewrite bind_Ok.
  rewrite bool_decide_eq_true_2 by (rewrite Hcr; eauto).
  cbn [negb subscript]. rewrite (getitem_Some _ _ _ Hcr), bind_Ok.
  cbn [py_iter]. by rewrite bind_Ok.
Qed.

Lemma check_claims_cons_bare (cutoff_time : datetime) (cm : gmap string json)
    (rest acc : list json) :
  cm !! "claimReview" = None →
  check_claims fromisoformat cutoff_time (JDict cm :: rest) acc =
    check_claims fromisoformat cutoff_time rest acc.
Proof.
  intros Hcr. cbn [check_claims py_in]. rewrite bind_Ok.
  rewrite bool_decide_eq_false_2; [done|]. rewrite Hcr. by intros [? ?].
Qed.

(** A review without a date that parses adds nothing. *)
Lemma check_review_undated (cutoff_time : datetime) (claim : json)
    (m : gmap string json) :
  m !! "reviewDate" = None ∨
  (∃ v, m !! "reviewDate" = Some v ∧
        (truthy v = false ∨ parse_review_date fromisoformat v = None)) →
  check_review fromisoformat cutoff_time claim (JDict m) = Ok None.
Proof.
  intros Hdate. unfold check_review. cbn [method_get]. rewrite bind_Ok.
  unfold dict_get. destruct Hdate as [->|(v & -> & [Hv|Hv])]; cbn [from_option id].
  - done.
  - by rewrite Hv.
  - rewrite Hv. by destruct (negb _).
Qed.

(** X18.  A claim without the key ["claimReview"], or with an empty list
    of reviews, adds nothing and stops nothing: the filter returns what it
    returns without that claim. *)
Theorem filter_skips_claim_without_reviews
    (clock : Z) (a b : list json) (cm : gmap string json) :
  cm !! "claimReview" = None ∨ cm !! "claimReview" = Some (JList []) →
  check_for_recent_false_claims fromisoformat clock (JList (a ++ JDict cm :: b)) =
  check_for_recent_false_claims fromisoformat clock (JList (a ++ b)).
Proof.
  intros Hcr. unfold check_for_recent_false_claims. cbn [py_iter].
  rewrite !bind_Ok, !check_claims_app. apply bind_ext. intros acc.
  destruct Hcr as [Hcr|Hcr].
  - by apply check_claims_cons_bare.
  - rewrite (check_claims_cons_reviews _ _ _ _ _ Hcr). cbn [check_reviews].
    by rewrite bind_Ok.
Qed.

(** X19.  The reviews of one claim are filtered one by one, in their
    order: for a claim whose reviews are two lists put together the filter
    returns what it returns for the claim with the first list followed by
    what it returns for the claim with the second. *)
Theorem filter_reviews_app
    (clock : Z) (cm : gmap string json) (r1 r2 : list json) :
  check_for_recent_false_claims fromisoformat clock
    (JList [JDict (<["claimReview" := JList (r1 ++ r2)]> cm)]) =
  (found_1 ← check_for_recent_false_claims fromisoformat clock
               (JList [JDict (<["claimReview" := JList r1]> cm)]);
   found_2 ← check_for_recent_false_claims fromisoformat clock
               (JList [JDict (<["claimReview" := JList r2]> cm)]);
   mret (found_1 ++ found_2)).
Proof.
  unfold check_for_recent_false_claims. cbn [py_iter]. rewrite !bind_Ok.
  rewrite !(check_claims_cons_reviews _ _ _ _ _ (lookup_insert_eq _ _ _)).
  cbn [check_claims].
  assert (Htext : ∀ r r', (<["claimReview" := JList r]> cm) !! "text"
                          = (<["claimReview" := JList r']> cm) !! "text").
  { intros r r'. by rewrite !lookup_insert_ne. }
  rewrite check_reviews_app.
  rewrite (check_reviews_text _ _ _ r1 (Htext (r1 ++ r2) r1)).
  rewrite !bind_assoc. apply bind_ext. intros l1. rewrite bind_Ok.
  rewrite (check_reviews_text _ _ _ r2 (Htext (r1 ++ r2) r2)).
  rewrite check_reviews_acc, !bind_assoc. apply bind_ext. intros l2.
  by rewrite !bind_Ok.
Qed.

(** X20.  A review without a date, with a date that is empty, no string or
    not accepted by the parser is passed over silently, and only that
    review: the filter returns what it returns when the review is taken
    out of its claim. *)
Theorem filter_skips_undated_review
    (clock : Z) (a b r1 r2 : list json) (cm m : gmap string json) :
  m !! "reviewDate" = None ∨
  (∃ v, m !! "reviewDate" = Some v ∧
        (truthy v = false ∨ parse_review_date fromisoformat v = None)) →
  (∀ cutoff_time claim,
     check_review fromisoformat cutoff_time claim (JDict m) = Ok None) ∧
  check_for_recent_false_claims fromisoformat clock
    (JList (a ++ JDict (<["claimReview" := JList (r1 ++ JDict m :: r2)]> cm) :: b)) =
  check_for_recent_false_claims fromisoformat clock
    (JList (a ++ JDict (<["claimReview" := JList (r1 ++ r2)]> cm) :: b)).
Proof.
  intros Hdate. split; [intros; by apply check_review_undated|].
  unfold check_for_recent_false_claims. cbn [py_iter].
  rewrite !bind_Ok, !check_claims_app. apply bind_ext. intros acc.
  rewrite !(check_claims_cons_reviews _ _ _ _ _ (lookup_insert_eq _ _ _)).
  rewrite !check_reviews_app, !bind_assoc.
  rewrite (check_reviews_text _ _ (<["claimReview" := JList (r1 ++ r2)]> cm) r1)
    by by rewrite !lookup_insert_ne.
  apply bind_ext. intros acc1. cbn [check_reviews].
  rewrite check_review_undated, bind_Ok by done.
  by rewrite (check_reviews_text _ _ (<["claimReview" := JList (r1 ++ r2)]> cm) r2)
    by by rewrite !lookup_insert_ne.
Qed.

(** X21.  A review whose date has no offset parses to a naive datetime;
    its comparison with the cutoff raises a [TypeError] that nothing
    catches, so a run of the filter on any input that holds such a review
    in the reviews of a claim returns nothing. *)
Theorem filter_naive_date_aborts
    (clock : Z) (claims reviews : list json) (cm m : gmap string json)
    (s : string) (w : Z) :
  m !! "reviewDate" = Some (JStr s) →
  s ≠ EmptyString →
  fromisoformat (replace_Z s) = Some {| wall := w; utcoffset := None |} →
  JDict cm ∈ claims →
  cm !! "claimReview" = Some (JList reviews) →
  JDict m ∈ reviews →
  (∀ claim, check_review fromisoformat (dt_sub (now_utc clock) (timedelta_days 1))
              claim (JDict m) = Raise TypeError) ∧
  ∃ e, check_for_recent_false_claims fromisoformat clock (JList claims) = Raise e.
Proof.
  intros Hd Hs Hp Hin Hcr Hrev.
  assert (Hbody : ∀ claim,
    check_review fromisoformat (dt_sub (now_utc clock) (timedelta_days 1))
      claim (JDict m) = Raise TypeError).
  { intros claim. by rewrite (check_review_dated _ _ _ _ _ _ Hd Hs Hp), dt_lt_cutoff_naive. }
  split; [done|].
  destruct (check_for_recent_false_claims fromisoformat clock (JList claims))
    as [out|e] eqn:Hout; [|by eexists].
  unfold check_for_recent_false_claims in Hout. cbn [py_iter] in Hout.
  rewrite bind_Ok in Hout.
  destruct (check_claims_incl _ _ _ cm reviews (JDict m) _ _ Hout) as [_ Hincl].
  destruct (Hincl Hin Hcr Hrev) as (found & Hfound & _).
  by rewrite Hbody in Hfound.
Qed.

(** The dict appended by the body of the loop, field by field. *)
Lemma check_review_Some_fields (cutoff_time : datetime) (claim review c : json) :
  check_review fromisoformat cutoff_time claim review = Ok (Some c) →
  ∃ (review_date : datetime) (text rating source url : json),
    c = JDict {[ "date" := JStr (strftime_ymd review_date);
                 "claim" := text;
                 "rating" := rating;
                 "source" := source;
                 "url" := url ]}.
Proof.
  unfold check_review. intros H.
  apply bind_Ok_inv in H as (ds & _ & H).
  destruct (negb _); [discriminate|].
  destruct (parse_review_date _ _) as [rd|]; [|discriminate].
  apply bind_Ok_inv in H as (early & _ & H). destruct early; [discriminate|].
  apply bind_Ok_inv in H as (raw & _ & H).
  apply bind_Ok_inv in H as (rating & _ & H).
  destruct (is_false_rating rating); [|discriminate].
  apply bind_Ok_inv in H as (c' & H & [= <-]).
  unfold flagged_claim in H.
  apply bind_Ok_inv in H as (text & _ & H).
  apply bind_Ok_inv in H as (rt & _ & H).
  apply bind_Ok_inv in H as (pub & _ & H).
  apply bind_Ok_inv in H as (source & _ & H).
  apply bind_Ok_inv in H as (url & _ & [= <-]).
  by eexists _, _, _, _, _.
Qed.

(** X22.  Every entry the filter returns is a dict with the five keys
    ["date"], ["claim"], ["rating"], ["source"] and ["url"] and no other, and
    its date is a string. *)
Theorem filter_entry_shape (clock : Z) (claims : json) (out : list json) (c : json) :
  check_for_recent_false_claims fromisoformat clock claims = Ok out →
  c ∈ out →
  ∃ (fields : gmap string json) (date : string),
    c = JDict fields ∧
    dom fields = ({["date"; "claim"; "rating"; "source"; "url"]} : gset string) ∧
    fields !! "date" = Some (JStr date).
Proof.
  intros Hout Hc. unfold check_for_recent_false_claims in Hout.
  apply bind_Ok_inv in Hout as (items & _ & Hout).
  destruct (check_claims_elem _ _ _ _ _ _ Hout Hc)
    as [Hnil|(claim & review & _ & Hreview)].
  { by apply elem_of_nil in Hnil. }
  apply check_review_Some_fields in Hreview
    as (rd & text & rating & source & url & ->).
  eexists _, _. split; [done|]. split.
  - rewrite !dom_insert_L, dom_singleton_L. set_solver.
  - by simplify_map_eq.
Qed.

End FilterFurther.

(** An empty list of reviews in front of the two reviews. *)
Lemma filter_skips_claim_without_reviews_witness :
  check_for_recent_false_claims fromisoformat_plain noon
    (JList ([] ++ JDict (claim_with []) :: [JDict (claim_with [JDict (review_bare "soon")])])) =
  check_for_recent_false_claims fromisoformat_plain noon
    (JList ([] ++ [JDict (claim_with [JDict (review_bare "soon")])])).
Proof.
  apply (filter_skips_claim_without_reviews fromisoformat_plain noon []
           [JDict (claim_with [JDict (review_bare "soon")])] (claim_with [])).
  right. reflexivity.
Defined.

(** A review whose date is the word "soon", between two others. *)
Lemma filter_skips_undated_review_witness :
  let m := review_bare "soon" in
  let r1 := [JDict (review_rated "2024-03-01T13:00:00Z" "False")] in
  let r2 := [JDict (review_rated "2024-03-02T09:00:00Z" "Wrong")] in
  (∀ cutoff_time claim,
     check_review fromisoformat_plain cutoff_time claim (JDict m) = Ok None) ∧
  check_for_recent_false_claims fromisoformat_plain noon
    (JList ([] ++ JDict (<["claimReview" := JList (r1 ++ JDict m :: r2)]> claim_bare) :: [])) =
  check_for_recent_false_claims fromisoformat_plain noon
    (JList ([] ++ JDict (<["claimReview" := JList (r1 ++ r2)]> claim_bare) :: [])).
Proof.
  apply (filter_skips_undated_review fromisoformat_plain noon [] []
           [JDict (review_rated "2024-03-01T13:00:00Z" "False")]
           [JDict (review_rated "2024-03-02T09:00:00Z" "Wrong")]
           claim_bare (review_bare "soon")).
  right. exists (JStr "soon"). split; [reflexivity|]. right. reflexivity.
Defined.

(** A review dated by the day only. *)
Lemma filter_naive_date_aborts_witness :
  let m := review_rated "2024-03-01" "False" in
  (∀ claim, check_review fromisoformat_plain (dt_sub (now_utc noon) (timedelta_days 1))
              claim (JDict m) = Raise TypeError) ∧
  ∃ e, check_for_recent_false_claims fromisoformat_plain noon
         (JList [JDict (claim_with [JDict m])]) = Raise e.
Proof.
  apply (filter_naive_date_aborts fromisoformat_plain noon
           [JDict (claim_with [JDict (review_rated "2024-03-01" "False")])]
           [JDict (review_rated "2024-03-01" "False")]
           (claim_with [JDict (review_rated "2024-03-01" "False")])
           (review_rated "2024-03-01" "False")
           "2024-03-01" (clock_at 2024 3 1 0 0 0)).
  - reflexivity.
  - discriminate.
  - vm_compute. reflexivity.
  - apply list_elem_of_here.
  - reflexivity.
  - apply list_elem_of_here.
Defined.

(** The entry returned for the two reviews. *)
Lemma filter_entry_shape_witness :
  ∃ (fields : gmap string json) (date : string),
    flagged_entry = JDict fields ∧
    dom fields = ({["date"; "claim"; "rating"; "source"; "url"]} : gset string) ∧
    fields !! "date" = Some (JStr date).
Proof.
  apply (filter_entry_shape fromisoformat_plain noon two_reviews one_flagged flagged_entry).
  - vm_compute. reflexivity.
  - apply list_elem_of_here.
Defined.

(** ** Ratings *)

Lemma string_app_assoc (a b c : string) : (a +:+ b) +:+ c = a +:+ b +:+ c.
Proof.
  induction a as [|x a IH]; [done|]. by rewrite !append_cons, IH.
Qed.

Lemma lower_app (a b : string) : lower (a +:+ b) = lower a +:+ lower b.
Proof.
  induction a as [|x a IH]; [done|].
  rewrite append_cons. cbn [lower]. by rewrite append_cons, IH.
Qed.

(** X23.  The match on ratings is by substring and blind to case: a
    rating that is classified as false stays so with any text put before
    and after it. *)
Theorem false_rating_in_context (r pre post : string) :
  is_false_rating (lower r) = true →
  is_false_rating (lower (pre +:+ r +:+ post)) = true.
Proof.
  rewrite !is_false_rating_spec. intros (term & Hin & pre' & post' & Hr).
  exists term. split; [done|].
  exists (lower pre +:+ pre'), (post' +:+ lower post).
  by rewrite !lower_app, Hr, !string_app_assoc.
Qed.

(** The rating "half true, half wrong". *)
Lemma false_rating_in_context_witness :
  is_false_rating (lower ("half true, half " +:+ "Wrong" +:+ EmptyString)) = true.
Proof. apply (false_rating_in_context "Wrong" "half true, half " EmptyString). reflexivity. Defined.

(** ** Runs one after the other *)

Section MainRerun.

Variable fromisoformat : string → option datetime.

(** The world after a run on the normal path. *)
Lemma main_normal_world
    (w : world) (key : string) (claims : json) (m m' : gmap string json)
    (L : list json) :
  environ_key w = Some key → key ≠ EmptyString →
  data_json w = Content (JDict m) →
  disk_ok w = true →
  claims_of (service w) = Ok claims →
  truthy claims = true →
  check_for_recent_false_claims fromisoformat (clock w) claims = Ok L →
  update_counter m L = Ok m' →
  main fromisoformat w =
    (Ok (), {| data_json := Content (JDict m');
               disk_ok := true;
               open_ok := open_ok w;
               environ_key := environ_key w;
               service := service w;
               clock := clock w;
               writes := writes w ++ [JDict m'];
               requests_sent := S (requests_sent w) |}).
Proof.
  intros Hkey Hne Hfile Hdisk Hclaims Htruthy HL Hm'. unfold_main.
  rewrite Hkey, Hfile. destruct key as [|c key]; [done|].
  rewrite Hclaims, Htruthy. cbn. rewrite HL. unfold update_loaded.
  rewrite Hm'. cbn. by rewrite Hdisk, Hkey.
Qed.

(** X24.  The script keeps no note of the reviews it has counted.  A
    second run on the record the first run wrote, for which the filter
    returns the same flagged reviews, counts them again: the total has
    grown by twice their number and the history holds them twice. *)
Theorem main_counts_again
    (w v : world) (key key' : string) (claims claims' : json)
    (m : gmap string json) (L r : list json) (t : Z) :
  environ_key w = Some key → key ≠ EmptyString →
  data_json w = Content (JDict m) →
  disk_ok w = true →
  claims_of (service w) = Ok claims →
  truthy claims = true →
  check_for_recent_false_claims fromisoformat (clock w) claims = Ok L →
  L ≠ [] →
  m !! "term_2" = Some (JInt t) →
  m !! "recent_lies" = Some (JList r) →
  environ_key v = Some key' → key' ≠ EmptyString →
  disk_ok v = true →
  claims_of (service v) = Ok claims' →
  truthy claims' = true →
  check_for_recent_false_claims fromisoformat (clock v) claims' = Ok L →
  data_json v = data_json (main fromisoformat w).2 →
  ∃ w1 v1 m2,
    main fromisoformat w = (Ok (), w1) ∧
    main fromisoformat v = (Ok (), v1) ∧
    data_json v1 = Content (JDict m2) ∧
    m2 !! "days_since_lie" = Some (JInt 0) ∧
    m2 !! "term_2" = Some (JInt (t + 2 * Z.of_nat (length L))) ∧
    m2 !! "recent_lies" = Some (JList (take 10 (rev L ++ rev L ++ r))).
Proof.
  intros Hkey Hne Hfile Hdisk Hclaims Htruthy HL Hnil Ht Hr
         Hkey' Hne' Hdisk' Hclaims' Htruthy' HL' Hfile'.
  pose proof (update_counter_nonempty m L r t Hnil Ht Hr) as Hm1.
  rewrite (main_normal_world w key claims m _ L Hkey Hne Hfile Hdisk Hclaims
             Htruthy HL Hm1) in Hfile' |- *.
  cbn [snd data_json] in Hfile'.
  pose proof (update_counter_append m L L r t Hnil Hnil Ht Hr) as Happ.
  rewrite Hm1, bind_Ok in Happ.
  assert (Hnil2 : L ++ L ≠ []) by (destruct L; [done|discriminate]).
  rewrite (update_counter_nonempty m (L ++ L) r t Hnil2 Ht Hr) in Happ.
  eexists _, _, _. split; [done|]. split.
  { apply (main_normal_world v key' claims' _ _ L Hkey' Hne' Hfile' Hdisk'
             Hclaims' Htruthy' HL' Happ). }
  split; [done|]. split; [by simplify_map_eq|]. split.
  - rewrite lookup_insert_ne, lookup_insert_eq by done.
    do 2 f_equal. rewrite length_app. lia.
  - rewrite lookup_insert_eq. by rewrite rev_app_distr, <- app_assoc.
Qed.

End MainRerun.

(** Two runs at noon on the two reviews, from the record of the scenario. *)
Lemma main_counts_again_witness :
  ∃ w1 v1 m2,
    main fromisoformat_plain (world_served (Content (JDict five_days))) = (Ok (), w1) ∧
    main fromisoformat_plain (world_served (Content (JDict after_flagged))) = (Ok (), v1) ∧
    data_json v1 = Content (JDict m2) ∧
    m2 !! "days_since_lie" = Some (JInt 0) ∧
    m2 !! "term_2" = Some (JInt (10 + 2 * Z.of_nat (length one_flagged))) ∧
    m2 !! "recent_lies" = Some (JList (take 10 (rev one_flagged ++ rev one_flagged ++ []))).
Proof.
  apply (main_counts_again fromisoformat_plain
           (world_served (Content (JDict five_days)))
           (world_served (Content (JDict after_flagged)))
           "secret" "secret" two_reviews two_reviews five_days one_flagged [] 10).
  all: try reflexivity; try discriminate.
  all: vm_compute; reflexivity.
Defined.

(** The service answers with a JSON array. *)
Lemma main_body_not_object_witness :
  let w := with_service (Body (JList [])) (world_served (Content (JDict five_days))) in
  ∃ w', main fromisoformat_plain w = (Raise AttributeError, w') ∧
        data_json w' = data_json w ∧
        writes w' = writes w ∧
        requests_sent w' = S (requests_sent w).
Proof.
  apply (main_body_not_object fromisoformat_plain
           (with_service (Body (JList [])) (world_served (Content (JDict five_days))))
           "secret" (JList []) (JDict five_days)).
  - reflexivity.
  - discriminate.
  - reflexivity.
  - reflexivity.
  - discriminate.
Defined.
